(** * SnowRail: the Python example client and the service contract it talks to

    Source under verification: [examples/python/client.py].

    The first half of this file is a shallow embedding of the client:
    Python values as they come out of [response.json()], the [requests]
    session as a transport that answers one request at a time (and, below
    it, the HTTP requests a session call puts on the wire when it follows
    redirects), the six methods of [SnowRailClient],
    [print_validation_result] and [main].

    The second half models the server-side core (URL risk evaluator and
    intent ledger).  Its code is not part of the inspected sources, so those
    definitions follow the written specification and say so. *)

From Stdlib Require Import ZArith String Ascii List Bool Lia.
From stdpp Require Import base option list gmap strings pretty.

Import ListNotations.
Set Warnings "-register-all".
Local Open Scope string_scope.
Local Open Scope list_scope.
Local Open Scope Z_scope.

(* ===================================================================== *)
(** ** Python values and built-ins used by the client *)
(* ===================================================================== *)

Module Py.

(** What [response.json()] can evaluate to.  A [dict] keeps insertion
    order, so an object is an association list; a well-formed [dict] binds
    each key once, and subscripting reads the first binding.  Numbers are
    the integers ([float] is left out). *)
Inductive JSON : Type :=
| JNull
| JBool (b : bool)
| JNum (z : Z)
| JStr (s : string)
| JArr (items : list JSON)
| JObj (fields : list (string * JSON)).

(** The exceptions the modelled code can raise. *)
Inductive Exn : Type :=
| ConnectionError (why : string)   (* no response at all *)
| HTTPError (status : Z)           (* [raise_for_status] *)
| JSONDecodeError                  (* [response.json()] on a non-JSON body *)
| KeyError (key : string)
| AttributeError
| TypeError.

(** [d.get(k)] as an option. *)
Fixpoint dict_get (k : string) (d : list (string * JSON)) : option JSON :=
  match d with
  | [] => None
  | (k', v) :: rest => if String.eqb k k' then Some v else dict_get k rest
  end.

(** Python truthiness, as tested by [if x] and [a if x else b]. *)
Definition truthy (v : JSON) : bool :=
  match v with
  | JNull => false
  | JBool b => b
  | JNum z => negb (Z.eqb z 0)
  | JStr s => negb (String.eqb s "")
  | JArr items => match items with [] => false | _ => true end
  | JObj fields => match fields with [] => false | _ => true end
  end.

Definition mem_char (c : ascii) (chars : string) : bool :=
  existsb (Ascii.eqb c) (list_ascii_of_string chars).

Definition is_empty (s : string) : bool :=
  match s with EmptyString => true | String _ _ => false end.

(** [s.rstrip(chars)]: drop every trailing character that occurs in
    [chars]. *)
Fixpoint rstrip (chars : string) (s : string) : string :=
  match s with
  | EmptyString => EmptyString
  | String a rest =>
      let rest' := rstrip chars rest in
      if is_empty rest' && mem_char a chars then EmptyString
      else String a rest'
  end.

(** [s.endswith(c)] for a single character. *)
Fixpoint ends_with (c : ascii) (s : string) : bool :=
  match s with
  | EmptyString => false
  | String a EmptyString => Ascii.eqb a c
  | String _ rest => ends_with c rest
  end.

(** A string is held as its UTF-8 bytes.  A byte from 128 to 191 continues
    a character; every other byte starts one. *)
Definition is_continuation (c : ascii) : bool :=
  let n := nat_of_ascii c in
  (Nat.leb 128 n && Nat.leb n 191)%bool.

(** [list(s)]: the characters of a string, each as a string of its own. *)
Fixpoint chars (s : string) : list string :=
  match s with
  | EmptyString => []
  | String a rest =>
      match rest with
      | String b _ =>
          if is_continuation b then
            match chars rest with
            | piece :: pieces => String a piece :: pieces
            | [] => [String a EmptyString]
            end
          else String a EmptyString :: chars rest
      | EmptyString => [String a EmptyString]
      end
  end.

(** A string of ASCII characters only. *)
Definition is_ascii (s : string) : bool :=
  forallb (fun c => Nat.ltb (nat_of_ascii c) 128) (list_ascii_of_string s).

(** [s.lower()] on a string of ASCII characters: A..Z become a..z.  Other
    bytes are kept as they are. *)
Definition lower_char (c : ascii) : ascii :=
  let n := nat_of_ascii c in
  if (Nat.leb 65 n && Nat.leb n 90)%bool then ascii_of_nat (n + 32) else c.

Fixpoint lower (s : string) : string :=
  match s with
  | EmptyString => EmptyString
  | String a rest => String (lower_char a) (lower rest)
  end.

(** [s.upper()] on a string of ASCII characters: a..z become A..Z.  Other
    bytes are kept as they are, so on a string with characters outside
    ASCII this is not Python's upper-casing; what is stated about the
    upper-cased text below is stated for ASCII strings. *)
Definition upper_char (c : ascii) : ascii :=
  let n := nat_of_ascii c in
  if (Nat.leb 97 n && Nat.leb n 122)%bool then ascii_of_nat (n - 32) else c.

Fixpoint upper (s : string) : string :=
  match s with
  | EmptyString => EmptyString
  | String a rest => String (upper_char a) (upper rest)
  end.

(** ['c' * n]. *)
Fixpoint repeat_char (c : ascii) (n : nat) : string :=
  match n with
  | O => EmptyString
  | S k => String c (repeat_char c k)
  end.

(** State-and-exception monad: a raise keeps the effects done so far. *)
Definition M (S A : Type) : Type := S -> (Exn + A) * S.

Definition ret {S A : Type} (a : A) : M S A := fun s => (inr a, s).

Definition raise {S A : Type} (e : Exn) : M S A := fun s => (inl e, s).

Definition bind {S A B : Type} (m : M S A) (k : A -> M S B) : M S B :=
  fun s =>
    match m s with
    | (inl e, s') => (inl e, s')
    | (inr a, s') => k a s'
    end.

(** [for x in xs: body(x)]. *)
Fixpoint for_each {S A : Type} (xs : list A) (body : A -> M S unit) : M S unit :=
  match xs with
  | [] => ret tt
  | x :: rest => bind (body x) (fun _ => for_each rest body)
  end.

End Py.

Import Py.

Notation "x <- m ;; k" := (Py.bind m (fun x => k))
  (at level 100, m at next level, right associativity).
Notation "m ;; k" := (Py.bind m (fun _ => k))
  (at level 100, right associativity).

(* ===================================================================== *)
(** ** The [requests] session *)
(* ===================================================================== *)

Module Http.

Inductive Verb : Type := GET | POST.

(** One call of [session.get] or [session.post]: the verb, the URL, the
    session's headers and, for a call made with [json=...], the body. *)
Record Request : Type := mkRequest {
  verb : Verb;
  target : string;
  headers : list (string * string);
  body : option JSON
}.

(** The response object handed back by the session.  [content_json] is what
    [response.json()] evaluates to; [None] stands for a body that is not a
    JSON document, on which [json()] raises. *)
Record Response : Type := mkResponse {
  status_code : Z;
  content_json : option JSON
}.

(** The headers of a session are a [CaseInsensitiveDict]: names are
    compared after lower-casing (header names are ASCII), and the dict keeps
    the spelling of the name that was set last. *)
Definition same_name (k k' : string) : bool :=
  String.eqb (lower k) (lower k').

(** [headers[k]]. *)
Fixpoint header_get (k : string) (hs : list (string * string)) : option string :=
  match hs with
  | [] => None
  | (k', v) :: rest => if same_name k k' then Some v else header_get k rest
  end.

(** [headers[k] = v]: a name that is present, in whatever case, keeps its
    place and takes the new spelling and value; a new name goes last. *)
Fixpoint header_set (k v : string) (hs : list (string * string))
  : list (string * string) :=
  match hs with
  | [] => [(k, v)]
  | (k', v') :: rest =>
      if same_name k k' then (k, v) :: rest else (k', v') :: header_set k v rest
  end.

(** [headers.update(other)]. *)
Definition headers_update (hs other : list (string * string))
  : list (string * string) :=
  fold_left (fun acc kv => header_set (fst kv) (snd kv) acc) other hs.

(** [requests.Session]: the only attribute the client touches is
    [headers]. *)
Record Session : Type := mkSession {
  session_headers : list (string * string)
}.

Section Transport.

(** The far side of the session.  [serve req sv] is the outcome of one
    session call against the remote state [sv]: a response, or the reason
    why none arrived, and the remote state afterwards. *)
Variable Server : Type.
Variable serve : Request -> Server -> (string + Response) * Server.

(** What a client run can observe and change: the calls made on the
    session so far, oldest first, and the remote state. *)
Record Net : Type := mkNet {
  sent : list Request;
  remote : Server
}.

Definition send (req : Request) : M Net Response :=
  fun n =>
    let '(outcome, sv) := serve req (remote n) in
    let n' := {| sent := sent n ++ [req]; remote := sv |} in
    match outcome with
    | inl why => (inl (ConnectionError why), n')
    | inr resp => (inr resp, n')
    end.

(** [session.post(endpoint, json=payload)]. *)
Definition post (s : Session) (endpoint : string) (payload : JSON) : M Net Response :=
  send {| verb := POST; target := endpoint;
          headers := session_headers s; body := Some payload |}.

(** [session.get(endpoint)]. *)
Definition get (s : Session) (endpoint : string) : M Net Response :=
  send {| verb := GET; target := endpoint;
          headers := session_headers s; body := None |}.

(** [response.raise_for_status()]: [HTTPError] for a 4xx or 5xx status,
    nothing otherwise. *)
Definition raise_for_status (resp : Response) : M Net unit :=
  if (400 <=? status_code resp) && (status_code resp <? 500) then
    raise (HTTPError (status_code resp))
  else if (500 <=? status_code resp) && (status_code resp <? 600) then
    raise (HTTPError (status_code resp))
  else ret tt.

(** [response.json()]. *)
Definition json (resp : Response) : M Net JSON :=
  match content_json resp with
  | Some j => ret j
  | None => raise JSONDecodeError
  end.

End Transport.

Arguments mkNet {Server} _ _.
Arguments sent {Server} _.
Arguments remote {Server} _.
Arguments send {Server} serve req _.
Arguments post {Server} serve s endpoint payload _.
Arguments get {Server} serve s endpoint _.
Arguments raise_for_status {Server} resp _.
Arguments json {Server} resp _.

End Http.

Import Http.

(* ===================================================================== *)
(** ** [class SnowRailClient] *)
(* ===================================================================== *)

Module SnowRailClient.

Record t : Type := mk {
  base_url : string;
  session : Session
}.

(** [SnowRailClient(base_url)].  [library_headers] are the headers a fresh
    [requests.Session()] starts with; [None] is the call that leaves
    [base_url] out. *)
Definition __init__ (library_headers : list (string * string))
    (base_url : option string) : t :=
  let base_url := default "http://localhost:3000" base_url in
  let session := {| session_headers := library_headers |} in
  let session :=
    {| session_headers :=
         headers_update (session_headers session)
           [("Content-Type", "application/json");
            ("User-Agent", "SnowRail-Python-Client/1.0")] |} in
  {| base_url := rstrip "/" base_url; session := session |}.

Section Methods.

Variable Server : Type.
Variable serve : Request -> Server -> (string + Response) * Server.

Definition validate_url (self : t) (url : string) (amount : option Z)
  : M (Net Server) JSON :=
  let amount := default 100 amount in
  let endpoint := base_url self +:+ "/v1/sentinel/validate" in
  response <- post serve (session self) endpoint
                   (JObj [("url", JStr url); ("amount", JNum amount)]) ;;
  raise_for_status response ;;
  json response.

Definition create_intent (self : t) (url : string) (amount : Z)
    (sender recipient : string) : M (Net Server) JSON :=
  let endpoint := base_url self +:+ "/v1/payments/x402/intent" in
  response <- post serve (session self) endpoint
                   (JObj [("url", JStr url); ("amount", JNum amount);
                          ("sender", JStr sender);
                          ("recipient", JStr recipient)]) ;;
  raise_for_status response ;;
  json response.

Definition get_authorization (self : t) (intent_id : string)
  : M (Net Server) JSON :=
  let endpoint := base_url self +:+ "/v1/payments/x402/sign" in
  response <- post serve (session self) endpoint
                   (JObj [("intentId", JStr intent_id)]) ;;
  raise_for_status response ;;
  json response.

Definition confirm_payment (self : t) (intent_id signature : string)
  : M (Net Server) JSON :=
  let endpoint := base_url self +:+ "/v1/payments/x402/confirm" in
  response <- post serve (session self) endpoint
                   (JObj [("intentId", JStr intent_id);
                          ("signature", JStr signature)]) ;;
  raise_for_status response ;;
  json response.

Definition get_intent_status (self : t) (intent_id : string)
  : M (Net Server) JSON :=
  let endpoint := base_url self +:+ "/v1/payments/x402/status/" +:+ intent_id in
  response <- get serve (session self) endpoint ;;
  raise_for_status response ;;
  json response.

Definition health_check (self : t) : M (Net Server) JSON :=
  let endpoint := base_url self +:+ "/health" in
  response <- get serve (session self) endpoint ;;
  raise_for_status response ;;
  json response.

End Methods.

Arguments validate_url {Server} serve self url amount _.
Arguments create_intent {Server} serve self url amount sender recipient _.
Arguments get_authorization {Server} serve self intent_id _.
Arguments confirm_payment {Server} serve self intent_id signature _.
Arguments get_intent_status {Server} serve self intent_id _.
Arguments health_check {Server} serve self _.

(** A method call with its arguments, so that properties shared by the six
    methods are stated once. *)
Inductive Call : Type :=
| ValidateUrl (url : string) (amount : option Z)
| CreateIntent (url : string) (amount : Z) (sender recipient : string)
| GetAuthorization (intent_id : string)
| ConfirmPayment (intent_id signature : string)
| GetIntentStatus (intent_id : string)
| HealthCheck.

Definition invoke {Server : Type}
    (serve : Request -> Server -> (string + Response) * Server)
    (self : t) (c : Call) : M (Net Server) JSON :=
  match c with
  | ValidateUrl url amount => validate_url serve self url amount
  | CreateIntent url amount sender recipient =>
      create_intent serve self url amount sender recipient
  | GetAuthorization intent_id => get_authorization serve self intent_id
  | ConfirmPayment intent_id signature =>
      confirm_payment serve self intent_id signature
  | GetIntentStatus intent_id => get_intent_status serve self intent_id
  | HealthCheck => health_check serve self
  end.

End SnowRailClient.

(** The endpoint table of the interface description, read as data: for each
    call the verb, the path below the base URL and the members of the JSON
    body.  This follows the written table, not the code. *)
Definition endpoint_table (c : SnowRailClient.Call)
  : Verb * string * option (list (string * JSON)) :=
  match c with
  | SnowRailClient.ValidateUrl url amount =>
      (POST, "/v1/sentinel/validate",
       Some [("url", JStr url); ("amount", JNum (default 100 amount))])
  | SnowRailClient.CreateIntent url amount sender recipient =>
      (POST, "/v1/payments/x402/intent",
       Some [("url", JStr url); ("amount", JNum amount);
             ("sender", JStr sender); ("recipient", JStr recipient)])
  | SnowRailClient.GetAuthorization intent_id =>
      (POST, "/v1/payments/x402/sign", Some [("intentId", JStr intent_id)])
  | SnowRailClient.ConfirmPayment intent_id signature =>
      (POST, "/v1/payments/x402/confirm",
       Some [("intentId", JStr intent_id); ("signature", JStr signature)])
  | SnowRailClient.GetIntentStatus intent_id =>
      (GET, "/v1/payments/x402/status/" +:+ intent_id, None)
  | SnowRailClient.HealthCheck => (GET, "/health", None)
  end.

(** The request that the table prescribes for a call on a given client. *)
Definition expected_request (self : SnowRailClient.t) (c : SnowRailClient.Call)
  : Request :=
  let '(v, path, members) := endpoint_table c in
  {| verb := v;
     target := SnowRailClient.base_url self +:+ path;
     headers := session_headers (SnowRailClient.session self);
     body := JObj <$> members |}.

(* ===================================================================== *)
(** ** The session on the wire: redirects *)
(* ===================================================================== *)

Module Redirects.

(** What comes back for one HTTP request: the response and its [Location]
    header, if it has one. *)
Record Reply : Type := mkReply {
  response : Response;
  location : option string
}.

(** [Session.max_redirects]. *)
Definition max_redirects : nat := 30.

(** The statuses the session treats as a redirect. *)
Definition is_redirect_status (status : Z) : bool :=
  (status =? 301) || (status =? 302) || (status =? 303) ||
  (status =? 307) || (status =? 308).

(** The verb of the request that follows a redirect: 303 and 302 turn it
    into GET, 301 turns POST into GET, 307 and 308 keep it. *)
Definition rebuild_method (v : Verb) (status : Z) : Verb :=
  if (status =? 303) || (status =? 302) then GET
  else if status =? 301 then match v with POST => GET | GET => GET end
  else v.

Definition without (name : string) (hs : list (string * string))
  : list (string * string) :=
  List.filter (fun kv => negb (same_name name (fst kv))) hs.

(** The request the session sends after a reply, or [None] when the reply
    is final: a reply is followed when it has a redirect status and a
    [Location].  Unless the status is 307 or 308 the body and the headers
    that describe it are dropped.  The [Location] is taken to be an
    absolute URL; cookies and credentials are left out. *)
Definition next_request (req : Request) (rp : Reply) : option Request :=
  match location rp with
  | None => None
  | Some url =>
      let status := status_code (response rp) in
      if is_redirect_status status then
        let keeps_body := (status =? 307) || (status =? 308) in
        Some {| verb := rebuild_method (verb req) status;
                target := url;
                headers :=
                  without "Cookie"
                    (if keeps_body then headers req
                     else without "Transfer-Encoding"
                            (without "Content-Type"
                               (without "Content-Length" (headers req))));
                body := if keeps_body then body req else None |}
      else None
  end.

Section Session.

(** The network below the session.  [exchange req w] is the outcome of
    putting one HTTP request on the wire: a reply, or the reason why none
    came, and the far side afterwards. *)
Variable W : Type.
Variable exchange : Request -> W -> (string + Reply) * W.

(** The redirect rule of the session. *)
Variable follow_up : Request -> Reply -> option Request.

(** What is below a session: every HTTP request put on the wire so far,
    oldest first, and the far side. *)
Record Wire : Type := mkWire {
  on_wire : list Request;
  far : W
}.

(** Send [req] and follow redirects, at most [allowed] of them; one more
    redirect is the error of too many redirects, which, like a connection
    error, ends the call without a response. *)
Fixpoint send_following (allowed : nat) (req : Request) (s : Wire)
  : (string + Response) * Wire :=
  let '(outcome, w) := exchange req (far s) in
  let s' := {| on_wire := on_wire s ++ [req]; far := w |} in
  match outcome with
  | inl why => (inl why, s')
  | inr rp =>
      match follow_up req rp with
      | None => (inr (response rp), s')
      | Some req' =>
          match allowed with
          | O => (inl "Exceeded 30 redirects.", s')
          | S k => send_following k req' s'
          end
      end
  end.

(** One call of [session.get] or [session.post], redirects allowed as by
    default. *)
Definition session_call (req : Request) (s : Wire) : (string + Response) * Wire :=
  send_following max_redirects req s.

End Session.

Arguments mkWire {W} _ _.
Arguments on_wire {W} _.
Arguments far {W} _.
Arguments send_following {W} exchange follow_up allowed req s.
Arguments session_call {W} exchange follow_up req s.

End Redirects.

(* ===================================================================== *)
(** ** [print_validation_result] *)
(* ===================================================================== *)

Module Printer.

(** Standard output: one entry per [print] call, oldest first. *)
Definition Stdout : Type := list string.

Definition nl : string := String (ascii_of_nat 10) EmptyString.

Definition print (line : string) : M Stdout unit :=
  fun out => (inr tt, out ++ [line]).

(** [d[k]] on a dict. *)
Definition subscript (d : list (string * JSON)) (k : string) : M Stdout JSON :=
  match dict_get k d with
  | Some v => ret v
  | None => raise (KeyError k)
  end.

(** [v[k]] with a string key on an arbitrary value: only a dict accepts
    one. *)
Definition item (v : JSON) (k : string) : M Stdout JSON :=
  match v with
  | JObj fields => subscript fields k
  | _ => raise TypeError
  end.

(** [v.upper()]: only [str] has the method. *)
Definition call_upper (v : JSON) : M Stdout string :=
  match v with
  | JStr s => ret (upper s)
  | _ => raise AttributeError
  end.

(** The values a [for] loop draws from [v]: the items of a list, the
    characters of a string, the keys of a dict; anything else is not
    iterable. *)
Definition iterate (v : JSON) : M Stdout (list JSON) :=
  match v with
  | JArr items => ret items
  | JStr s => ret (map JStr (chars s))
  | JObj fields => ret (map (fun kv => JStr (fst kv)) fields)
  | _ => raise TypeError
  end.

Section Formatting.

(** [str(v)], as an f-string field renders a value.  It is total on the
    values of [JSON]. *)
Variable str : JSON -> string.

Definition print_validation_result (result : list (string * JSON))
  : M Stdout unit :=
  print (nl +:+ repeat_char "=" 60) ;;
  print "VALIDATION RESULT" ;;
  print (repeat_char "=" 60) ;;
  url <- subscript result "url" ;;
  print ("URL:         " +:+ str url) ;;
  canPay <- subscript result "canPay" ;;
  print ("Can Pay:     " +:+ (if truthy canPay then "✓ YES" else "✗ NO")) ;;
  trustScore <- subscript result "trustScore" ;;
  print ("Trust Score: " +:+ str trustScore +:+ "/100") ;;
  risk <- subscript result "risk" ;;
  risk_upper <- call_upper risk ;;
  print ("Risk:        " +:+ risk_upper) ;;
  decision <- subscript result "decision" ;;
  decision_upper <- call_upper decision ;;
  print ("Decision:    " +:+ decision_upper) ;;
  duration <- subscript result "duration" ;;
  print ("Duration:    " +:+ str duration +:+ "ms") ;;
  (if truthy (default JNull (dict_get "blockedReasons" result)) then
     print (nl +:+ "Blocked Reasons:") ;;
     blockedReasons <- subscript result "blockedReasons" ;;
     reasons <- iterate blockedReasons ;;
     for_each reasons (fun reason => print ("  - " +:+ str reason))
   else ret tt) ;;
  (if truthy (default JNull (dict_get "warnings" result)) then
     print (nl +:+ "Warnings:") ;;
     warnings <- subscript result "warnings" ;;
     items <- iterate warnings ;;
     for_each items (fun warning => print ("  - " +:+ str warning))
   else ret tt) ;;
  print (nl +:+ "Security Checks:") ;;
  checks <- iterate (default (JArr []) (dict_get "checks" result)) ;;
  for_each checks (fun check =>
    passed <- item check "passed" ;;
    let status := if truthy passed then "✓" else "✗" in
    name <- item check "name" ;;
    score <- item check "score" ;;
    print ("  " +:+ status +:+ " " +:+ str name +:+ ": " +:+ str score +:+ "/100")) ;;
  print (repeat_char "=" 60 +:+ nl).

End Formatting.

(** The shapes under which the optional members do not make the printer
    raise.  [blockedReasons] and [warnings] are only looped over when
    truthy, and then have to be iterable. *)
Definition loopable_or_falsy (v : JSON) : bool :=
  match v with
  | JArr _ | JStr _ | JObj _ => true
  | _ => negb (truthy v)
  end.

Definition has_key (k : string) (v : JSON) : bool :=
  match v with
  | JObj fields => match dict_get k fields with Some _ => true | None => false end
  | _ => false
  end.

(** A check the loop can print: a dict with [passed], [name] and
    [score]. *)
Definition printable_check (v : JSON) : bool :=
  has_key "passed" v && has_key "name" v && has_key "score" v.

(** [checks] is a list of printable checks.  (An empty string or dict would
    loop zero times as well.) *)
Definition printable_checks (v : JSON) : bool :=
  match v with
  | JArr items => forallb printable_check items
  | JStr s => is_empty s
  | JObj fields => match fields with [] => true | _ => false end
  | _ => false
  end.

(** An optional member is absent or satisfies [ok]. *)
Definition absent_or (ok : JSON -> bool) (k : string)
    (result : list (string * JSON)) : bool :=
  match dict_get k result with
  | None => true
  | Some v => ok v
  end.

Definition is_str (v : JSON) : bool :=
  match v with JStr _ => true | _ => false end.

(** A member is present and satisfies [ok]. *)
Definition member_is (ok : JSON -> bool) (k : string)
    (result : list (string * JSON)) : bool :=
  match dict_get k result with
  | None => false
  | Some v => ok v
  end.

(** The six members read by subscript, in the order the function reads
    them. *)
Definition required_keys : list string :=
  ["url"; "canPay"; "trustScore"; "risk"; "decision"; "duration"].

(** The first required member that [result] lacks, if any. *)
Definition first_missing (result : list (string * JSON)) : option string :=
  find (fun k => match dict_get k result with Some _ => false | None => true end)
       required_keys.

Definition raised {S A : Type} (r : (Exn + A) * S) : option Exn :=
  match fst r with inl e => Some e | inr _ => None end.

End Printer.

(* ===================================================================== *)
(** ** The URL risk evaluator behind [/v1/sentinel/validate] *)
(* ===================================================================== *)

Module Sentinel.

(** Modelled from the spec: the risk evaluator's code is missing from the
    sources; section 3 gives the risk classes. *)
Inductive Risk : Type := low | medium | high.

(** Modelled from the spec: the evaluator's result types are missing from
    the sources; section 3, one entry of [checks] in a validation result. *)
Record CheckResult : Type := mkCheckResult {
  name : string;
  passed : bool;
  score : Z
}.

(** Modelled from the spec: the battery of checks is missing from the
    sources; section 4.1.  A check has its name, its weight in the
    aggregate, whether failing it blocks payment outright, and the check
    itself, which maps (url, amount) to passed and score. *)
Record Check : Type := mkCheck {
  check_name : string;
  weight : nat;
  hard_block : bool;
  run : string -> Z -> bool * Z
}.

(** Modelled from the spec: the result type is missing from the sources;
    section 3, with the members the specification determines (decision,
    blockedReasons, warnings and duration are left open there). *)
Record ValidationResult : Type := mkValidationResult {
  url : string;
  trustScore : Z;
  risk : Risk;
  canPay : bool;
  checks : list CheckResult
}.

(** Modelled from the spec: the evaluator's error type is missing from the
    sources; section 4.1 names the malformed URL. *)
Inductive ValidationError : Type := MalformedUrl.

(** Modelled from the spec: the evaluator's code is missing from the
    sources.  Section 4.1: a fixed battery of independent checks, each
    producing a named passed/score pair; a weighted combination of the
    scores; fixed thresholds for the tier. *)
Definition run_check (u : string) (amount : Z) (c : Check) : CheckResult :=
  {| name := check_name c;
     passed := fst (run c u amount);
     score := snd (run c u amount) |}.

(** Modelled from the spec: the aggregation code is missing from the
    sources; the sum of the scores, each times its check's weight. *)
Definition weighted_sum (battery : list Check) (u : string) (amount : Z) : Z :=
  fold_right (fun c acc => Z.of_nat (weight c) * snd (run c u amount) + acc) 0 battery.

(** Modelled from the spec: the aggregation code is missing from the
    sources; the sum of the weights. *)
Definition total_weight (battery : list Check) : Z :=
  fold_right (fun c acc => Z.of_nat (weight c) + acc) 0 battery.

(** Modelled from the spec: the aggregation code is missing from the
    sources; section 4.1, a deterministic weighted combination, here the
    weighted mean of the check scores, rounded down; a battery of total
    weight zero scores 0. *)
Definition aggregate (battery : list Check) (u : string) (amount : Z) : Z :=
  if total_weight battery =? 0 then 0
  else weighted_sum battery u amount / total_weight battery.

(** Modelled from the spec: the tier mapping is missing from the sources;
    section 4.1, at least 70 is low risk, 40 to 69 medium, below 40 high. *)
Definition risk_tier (s : Z) : Risk :=
  if 70 <=? s then low else if 40 <=? s then medium else high.

(** Modelled from the spec: the payment rule is missing from the sources;
    section 4.1, no check marked as hard-block fails. *)
Definition no_hard_block (battery : list Check) (u : string) (amount : Z) : bool :=
  forallb (fun c => implb (hard_block c) (fst (run c u amount))) battery.

Section Evaluator.

(** Configuration: the battery, the minimum score for payment and the
    syntactic test that tells a well-formed URL. *)
Variable battery : list Check.
Variable min_score : Z.
Variable well_formed : string -> bool.

(** Modelled from the spec: the handler of /v1/sentinel/validate is missing
    from the sources; section 4.1, validation of (url, amount).  A malformed
    URL
    is rejected with a structured error; otherwise the result is a function
    of the inputs and the check data alone. *)
Definition validate (u : string) (amount : Z)
  : ValidationError + ValidationResult :=
  if well_formed u then
    let s := aggregate battery u amount in
    inr {| url := u;
           trustScore := s;
           risk := risk_tier s;
           canPay := no_hard_block battery u amount && (min_score <=? s);
           checks := map (run_check u amount) battery |}
  else inl MalformedUrl.

End Evaluator.

(** A battery is in range when every check scores between 0 and 100. *)
Definition in_range (battery : list Check) : Prop :=
  Forall (fun c => forall u amount, 0 <= snd (run c u amount) <= 100) battery.

End Sentinel.

(* ===================================================================== *)
(** ** The intent ledger and settlement confirmer *)
(* ===================================================================== *)

Module Ledger.

(** Modelled from the spec: the ledger's code is missing from the sources;
    section 3, the states of an intent. *)
Inductive Status : Type := pending | authorized | confirmed | expired | failed.

(** Modelled from the spec: the ledger's error type is missing from the
    sources; section 7, the taxonomy. *)
Inductive Error : Type :=
| ValidationError
| NotFound
| InvalidState
| Expired
| InvalidSignature
| SettlementFailure.

(** Modelled from the spec: the intent type is missing from the sources;
    section 3. *)
Record Intent : Type := mkIntent {
  id : nat;
  url : string;
  amount : Z;
  sender : string;
  recipient : string;
  status : Status;
  createdAt : Z;
  expiresAt : Z
}.

(** Modelled from the spec: the authorization types are missing from the
    sources; section 4.3, the signed message holds the fields of the intent
    the signature binds. *)
Record Message : Type := mkMessage {
  m_intent : nat;
  m_amount : Z;
  m_sender : string;
  m_recipient : string;
  m_expiresAt : Z
}.

(** Modelled from the spec: the authorization types are missing from the
    sources; section 3, a signing domain and the message. *)
Record Authorization : Type := mkAuthorization {
  domain : string;
  message : Message
}.

(** Modelled from the spec: the receipt type is missing from the sources;
    section 3. *)
Record Receipt : Type := mkReceipt {
  txHash : string;
  explorerUrl : string;
  confirmedAt : Z;
  paid_amount : Z;
  paid_to : string
}.

(** Modelled from the spec: the ledger store is missing from the sources;
    section 9, a key-value store keyed by intent id.  It holds the intents
    and receipts by intent id, the log of settlements
    performed (one entry, the intent id, per settlement) and the next id
    to allocate. *)
Record State : Type := mkState {
  intents : gmap nat Intent;
  receipts : gmap nat Receipt;
  settlements : list nat;
  next_id : nat
}.

(** Modelled from the spec: the ledger store is missing from the sources;
    the empty ledger. *)
Definition init : State :=
  {| intents := ∅; receipts := ∅; settlements := []; next_id := 0%nat |}.

(** Modelled from the spec: the ledger's transitions are missing from the
    sources; a transition changes the status of an intent and nothing
    else. *)
Definition with_status (s : Status) (i : Intent) : Intent :=
  {| id := id i; url := url i; amount := amount i; sender := sender i;
     recipient := recipient i; status := s;
     createdAt := createdAt i; expiresAt := expiresAt i |}.

(** Modelled from the spec: the ledger store is missing from the sources;
    the write of one intent under its id. *)
Definition put_intent (k : nat) (i : Intent) (st : State) : State :=
  {| intents := <[k := i]> (intents st); receipts := receipts st;
     settlements := settlements st; next_id := next_id st |}.

Definition is_confirmed (s : Status) : bool :=
  match s with confirmed => true | _ => false end.

Definition is_open (s : Status) : bool :=
  match s with pending | authorized => true | _ => false end.

(** How often the log records a settlement of intent [k]. *)
Definition settled_count (k : nat) (st : State) : nat :=
  count_occ Nat.eq_dec (settlements st) k.

Section Core.

(** Configuration and the outside world: the lifetime of an intent, the
    signing domain, the address syntax, structured-signature verification
    (payload, claimed signer, signature), the settlement backend (the
    transaction hash, or [None] once its bounded retries are exhausted) and
    the explorer link of a transaction. *)
Variable ttl : Z.
Variable signing_domain : string.
Variable valid_address : string -> bool.
Variable verify : Authorization -> string -> string -> bool.
Variable settle : Intent -> option string.
Variable explorer : string -> string.

(** Modelled from the spec: the authorization issuer is missing from the
    sources; section 4.3, the payload is a function of the
    intent's id, amount, sender, recipient and expiry and of the fixed
    domain. *)
Definition payload (i : Intent) : Authorization :=
  {| domain := signing_domain;
     message := {| m_intent := id i; m_amount := amount i;
                   m_sender := sender i; m_recipient := recipient i;
                   m_expiresAt := expiresAt i |} |}.

(** Modelled from the spec: the settlement confirmer is missing from the
    sources; section 4.4, the signature is verified against the payload
    recomputed from the intent and the sender's claimed address. *)
Definition signature_ok (i : Intent) (signature : string) : bool :=
  verify (payload i) (sender i) signature.

(** Modelled from the spec: the intent ledger is missing from the sources;
    section 4.2, create.  Validates addresses and
    amount, allocates a fresh id, sets the expiry a fixed lifetime ahead
    and starts the intent as pending. *)
Definition create (now : Z) (u : string) (amt : Z) (from to : string)
    (st : State) : (Error + Intent) * State :=
  if (0 <? amt) && valid_address from && valid_address to
     && negb (String.eqb from to) then
    let i := {| id := next_id st; url := u; amount := amt; sender := from;
                recipient := to; status := pending;
                createdAt := now; expiresAt := now + ttl |} in
    (inr i, {| intents := <[next_id st := i]> (intents st);
               receipts := receipts st;
               settlements := settlements st;
               next_id := S (next_id st) |})
  else (inl ValidationError, st).

(** Modelled from the spec: the intent ledger is missing from the sources;
    section 4.2, the timeout transition, pending or authorized to expired
    once the expiry has passed. *)
Definition time_out (now : Z) (i : Intent) : Intent :=
  if is_open (status i) && (expiresAt i <? now) then with_status expired i else i.

(** Modelled from the spec: the authorization issuer is missing from the
    sources; section 4.3, authorization.  A pending intent
    becomes authorized; asking again before expiry reissues the (same)
    payload. *)
Definition authorize (now : Z) (k : nat) (st : State)
  : (Error + Authorization) * State :=
  match intents st !! k with
  | None => (inl NotFound, st)
  | Some i =>
      if expiresAt i <? now then (inl Expired, put_intent k (time_out now i) st)
      else
        match status i with
        | pending | authorized =>
            (inr (payload i), put_intent k (with_status authorized i) st)
        | expired => (inl Expired, st)
        | _ => (inl InvalidState, st)
        end
  end.

(** Modelled from the spec: the settlement confirmer is missing from the
    sources; sections 4.2 and 4.4, confirm.  An unknown id fails with
    NotFound.  A retried confirm of an already confirmed intent with the
    valid signature returns the existing receipt rather than settling
    again.  Otherwise the intent has to be unexpired (Expired) and
    authorized (InvalidState); a signature mismatch moves it to failed
    (InvalidSignature); a settlement that does not go through moves it to
    failed (SettlementFailure); a successful one produces the receipt and
    confirms the intent. *)
Definition confirm (now : Z) (k : nat) (signature : string) (st : State)
  : (Error + Receipt) * State :=
  match intents st !! k with
  | None => (inl NotFound, st)
  | Some i =>
      if is_confirmed (status i) && signature_ok i signature then
        match receipts st !! k with
        | Some r => (inr r, st)
        | None => (inl InvalidState, st)
        end
      else if expiresAt i <? now then
        (inl Expired, put_intent k (time_out now i) st)
      else
        match status i with
        | authorized =>
            if signature_ok i signature then
              match settle i with
              | Some tx =>
                  let r := {| txHash := tx; explorerUrl := explorer tx;
                              confirmedAt := now; paid_amount := amount i;
                              paid_to := recipient i |} in
                  (inr r,
                   {| intents := <[k := with_status confirmed i]> (intents st);
                      receipts := <[k := r]> (receipts st);
                      settlements := settlements st ++ [k];
                      next_id := next_id st |})
              | None =>
                  (inl SettlementFailure, put_intent k (with_status failed i) st)
              end
            else (inl InvalidSignature, put_intent k (with_status failed i) st)
        | expired => (inl Expired, st)
        | _ => (inl InvalidState, st)
        end
  end.

(** Modelled from the spec: the gateway is missing from the sources;
    section 4.5, one operation on the ledger per request. *)
Inductive step : State -> State -> Prop :=
| step_create now u amt from to st :
    step st (snd (create now u amt from to st))
| step_authorize now k st :
    step st (snd (authorize now k st))
| step_confirm now k signature st :
    step st (snd (confirm now k signature st)).

(** The ledgers that operations can produce from the empty one. *)
Inductive reachable : State -> Prop :=
| reach_init : reachable init
| reach_step st st' : reachable st -> step st st' -> reachable st'.

End Core.

(** Every stored intent sits below the next id to allocate, and the log
    holds one settlement for a confirmed intent and none for any other
    id. *)
Definition consistent (st : State) : Prop :=
  (forall k i, intents st !! k = Some i -> (k < next_id st)%nat) /\
  (forall k, settled_count k st =
             match intents st !! k with
             | Some i => if is_confirmed (status i) then 1%nat else 0%nat
             | None => 0%nat
             end).

(** Every confirmed intent has its receipt on file. *)
Definition receipts_on_file (st : State) : Prop :=
  forall k i,
    intents st !! k = Some i -> is_confirmed (status i) = true ->
    exists r : Receipt, receipts st !! k = Some r.

End Ledger.

(* ===================================================================== *)
(** ** Concrete clients, servers and ledgers for the worked instances *)
(* ===================================================================== *)

Module Examples.

(** The client of [main()], built from a base URL with a trailing slash,
    over the headers of a fresh session. *)
Definition client : SnowRailClient.t :=
  SnowRailClient.__init__
    [("User-Agent", "python-requests/2.31.0");
     ("Accept-Encoding", "gzip, deflate");
     ("Accept", "*/*");
     ("Connection", "keep-alive")]
    (Some "http://localhost:3000/").

(** Servers whose state counts the calls served.  Each answers every call
    alike. *)
Definition healthy : Request -> nat -> (string + Response) * nat :=
  fun _ served =>
    (inr {| status_code := 200;
            content_json := Some (JObj [("status", JStr "ok")]) |},
     S served).

Definition multiple_choices : Request -> nat -> (string + Response) * nat :=
  fun _ served =>
    (inr {| status_code := 300;
            content_json := Some (JObj [("choices", JArr [])]) |},
     S served).

Definition unavailable : Request -> nat -> (string + Response) * nat :=
  fun _ served =>
    (inr {| status_code := 503;
            content_json := Some (JObj [("error", JStr "unavailable")]) |},
     S served).

Definition fresh_net : Net nat := mkNet [] 0%nat.

(** A rendering of values good enough to run the printer: strings as they
    are, everything else as a placeholder. *)
Definition plain_str (v : JSON) : string :=
  match v with JStr s => s | _ => "?" end.

(** A validation result with the six required members only. *)
Definition bare_result : list (string * JSON) :=
  [("url", JStr "https://api.stripe.com"); ("canPay", JBool true);
   ("trustScore", JNum 95); ("risk", JStr "low");
   ("decision", JStr "allow"); ("duration", JNum 12)].

(** The same with a check that lacks its [passed] member. *)
Definition result_with_partial_check : list (string * JSON) :=
  bare_result ++
  [("checks", JArr [JObj [("name", JStr "tls"); ("score", JNum 90)]])].

(** A battery of two checks: transport security, which blocks payment when
    it fails, and a reputation score that drops for large amounts. *)
Definition uses_tls : Sentinel.Check :=
  {| Sentinel.check_name := "tls";
     Sentinel.weight := 2;
     Sentinel.hard_block := true;
     Sentinel.run := fun u _ =>
       if String.prefix "https://" u then (true, 100) else (false, 0) |}.

Definition reputation : Sentinel.Check :=
  {| Sentinel.check_name := "reputation";
     Sentinel.weight := 3;
     Sentinel.hard_block := false;
     Sentinel.run := fun _ amount =>
       if amount <=? 1000 then (true, 80) else (true, 45) |}.

Definition battery : list Sentinel.Check := [uses_tls; reputation].

(** A URL is taken as well formed when it names a scheme. *)
Definition has_scheme (u : string) : bool :=
  String.prefix "https://" u || String.prefix "http://" u.

(** A ledger configuration: intents live 900 seconds, an address starts
    with 0x, a signature is valid when it spells out the signer and the
    signed intent id, amount and expiry, and settlement always succeeds. *)
Definition ttl : Z := 900.

Definition valid_address (a : string) : bool := String.prefix "0x" a.

Definition toy_signature (signer : string) (m : Ledger.Message) : string :=
  signer +:+ "/" +:+ pretty (Ledger.m_intent m) +:+ "/" +:+
  pretty (Ledger.m_amount m) +:+ "/" +:+ Ledger.m_recipient m +:+ "/" +:+
  pretty (Ledger.m_expiresAt m).

Definition verify (a : Ledger.Authorization) (signer signature : string) : bool :=
  String.eqb signature (toy_signature signer (Ledger.message a)).

Definition settle (i : Ledger.Intent) : option string :=
  Some ("0xtx" +:+ pretty (Ledger.id i)).

Definition explorer (tx : string) : string := "https://explorer.example/tx/" +:+ tx.

Definition create := Ledger.create ttl valid_address.
Definition authorize := Ledger.authorize "SnowRail".
Definition confirm := Ledger.confirm "SnowRail" verify settle explorer.

(** An intent created at time 0 and authorized at time 5, its signature,
    and the ledger after a confirm at time 10. *)
Definition authorized_ledger : Ledger.State :=
  snd (authorize 5 0%nat
         (snd (create 0 "https://api.stripe.com" 100 "0xA11CE" "0xB0B"
                 Ledger.init))).

Definition good_signature : string := "0xA11CE/0/100/0xB0B/900".

Definition confirmed_ledger : Ledger.State :=
  snd (confirm 10 0%nat good_signature authorized_ledger).

(** A result that lacks [decision] and [duration]. *)
Definition result_without_decision : list (string * JSON) :=
  [("url", JStr "https://api.stripe.com"); ("canPay", JBool true);
   ("trustScore", JNum 95); ("risk", JStr "low")].

End Examples.

(* ===================================================================== *)
(** ** [main()], the example run *)
(* ===================================================================== *)

Module Script.

(** One row of the batch table: the URL, its trust score and its [canPay]
    flag, the last two as the server sent them. *)
Definition Row : Type := (string * JSON * JSON)%type.

(** How [main] can end other than by returning: an exception nobody
    catches, or [sys.exit(code)]. *)
Inductive Stop : Type :=
| Uncaught (e : Exn)
| SystemExit (code : Z).

(** [except requests.HTTPError] catches the exception of
    [raise_for_status] and no other. *)
Definition is_http_error (e : Exn) : bool :=
  match e with HTTPError _ => true | _ => false end.

(** [format(s, '<n')]: pad on the right with spaces up to [n] characters; a
    longer string is kept whole. *)
Definition ljust (n : nat) (s : string) : string :=
  s +:+ repeat_char " " (n - length (chars s)).

(** The URLs of the batch example. *)
Definition urls : list string :=
  ["https://api.stripe.com"; "https://api.github.com";
   "https://www.google.com"; "http://suspicious-site.xyz"].

Section Run.

Variable Server : Type.
Variable serve : Request -> Server -> (string + Response) * Server.

(** The headers of a fresh [requests.Session()]. *)
Variable library_headers : list (string * string).

(** [str(v)], as an f-string field renders a value. *)
Variable str : JSON -> string.

(** What the run can observe and change: the session's traffic with the
    remote side, and standard output. *)
Record World : Type := mkWorld {
  net : Net Server;
  stdout : Printer.Stdout
}.

(** [str(e)] of a caught [HTTPError]: the library's message for it, which
    names the status, the reason and the URL; the world at the time of the
    catch stands for what it can draw on. *)
Variable str_exc : World -> Exn -> string.

(** [results.sort(key=lambda x: x[1], reverse=True)]: the sorted list, or
    the exception of a comparison between scores that do not compare. *)
Variable sort_rows : list Row -> Exn + list Row.

Definition on_net {A : Type} (m : M (Net Server) A) : M World A :=
  fun w =>
    let '(r, n') := m (net w) in
    (r, {| net := n'; stdout := stdout w |}).

Definition on_stdout {A : Type} (m : M Printer.Stdout A) : M World A :=
  fun w =>
    let '(r, out') := m (stdout w) in
    (r, {| net := net w; stdout := out' |}).

(** [print(line)]. *)
Definition echo (line : string) : M World unit :=
  on_stdout (Printer.print line).

(** [print(f"{prefix}{e}")] in an [except ... as e] block. *)
Definition echo_exc (prefix : string) (e : Exn) : M World unit :=
  fun w => echo (prefix +:+ str_exc w e) w.

(** [try: body  except requests.HTTPError as e: handler(e)]. *)
Definition try_except_HTTPError {A : Type}
    (body : M World A) (handler : Exn -> M World A) : M World A :=
  fun w =>
    match body w with
    | (inl e, w') => if is_http_error e then handler e w' else (inl e, w')
    | (inr a, w') => (inr a, w')
    end.

(** [v.get(k, d)]: only a dict has the method. *)
Definition get_or (v : JSON) (k : string) (d : JSON) : M Printer.Stdout JSON :=
  match v with
  | JObj fields => Py.ret (default d (dict_get k fields))
  | _ => Py.raise AttributeError
  end.

(** [print_validation_result(result)] on whatever [validate_url] returned:
    a value that is not a dict fails at the first subscript, after the
    three heading lines. *)
Definition print_validation_result_of (result : JSON) : M Printer.Stdout unit :=
  match result with
  | JObj fields => Printer.print_validation_result str fields
  | _ =>
      Printer.print (Printer.nl +:+ repeat_char "=" 60) ;;
      Printer.print "VALIDATION RESULT" ;;
      Printer.print (repeat_char "=" 60) ;;
      Py.raise TypeError
  end.

(** The health check at the start of [main]: the [try] block, and the
    handler that reports and calls [sys.exit(1)]. *)
Definition check_health (client : SnowRailClient.t)
  : World -> (Stop + unit) * World :=
  fun w =>
    match (health <- on_net (SnowRailClient.health_check serve client) ;;
           status <- on_stdout (Printer.item health "status") ;;
           echo ("✓ API Status: " +:+ str status) ;;
           treasury <- on_stdout (get_or health "treasury" (JStr "unknown")) ;;
           echo ("  Treasury: " +:+ str treasury +:+ Printer.nl)) w with
    | (inr _, w') => (inr tt, w')
    | (inl e, w') =>
        if is_http_error e then
          match (echo_exc "✗ API is not reachable: " e ;;
                 echo "  Make sure the backend is running: pnpm backend:dev") w' with
          | (inr _, w'') => (inl (SystemExit 1), w'')
          | (inl e', w'') => (inl (Uncaught e'), w'')
          end
        else (inl (Uncaught e), w')
    end.

(** Examples 1 and 2: validate one URL with amount 100 and print the
    result; an [HTTPError] is reported and the run goes on. *)
Definition validate_and_print (client : SnowRailClient.t) (url : string)
  : M World unit :=
  try_except_HTTPError
    (result <- on_net (SnowRailClient.validate_url serve client url (Some 100)) ;;
     on_stdout (print_validation_result_of result))
    (fun e => echo_exc "✗ Error: " e).

(** The loop of example 4: one row per URL, [(url, 0, False)] for a URL
    whose validation raised [HTTPError]. *)
Fixpoint collect (client : SnowRailClient.t) (todo : list string)
    (results : list Row) : M World (list Row) :=
  match todo with
  | [] => Py.ret results
  | url :: rest =>
      results' <-
        try_except_HTTPError
          (result <- on_net (SnowRailClient.validate_url serve client url None) ;;
           trustScore <- on_stdout (Printer.item result "trustScore") ;;
           canPay <- on_stdout (Printer.item result "canPay") ;;
           Py.ret (results ++ [(url, trustScore, canPay)]))
          (fun _ => Py.ret (results ++ [(url, JNum 0, JBool false)])) ;;
      collect client rest results'
  end.

(** One line of the table. *)
Definition table_line (row : Row) : string :=
  let '(url, score, can_pay) := row in
  let status := if truthy can_pay then "✓" else "✗" in
  ljust 40 url +:+ " " +:+ str score +:+ "/100" +:+ ljust 8 " " +:+ " " +:+ status.

(** Example 4: collect, sort by score, print the table. *)
Definition batch (client : SnowRailClient.t) : M World unit :=
  echo (Printer.nl +:+ "Example 4: Batch validation...") ;;
  echo "Validating multiple URLs:" ;;
  results <- collect client urls [] ;;
  results <- (fun w => (sort_rows results, w)) ;;
  echo (Printer.nl +:+ ljust 40 "URL" +:+ " " +:+ ljust 15 "Trust Score" +:+ " "
        +:+ "Can Pay") ;;
  echo (repeat_char "-" 70) ;;
  for_each results (fun row => echo (table_line row)) ;;
  echo (Printer.nl +:+ "✨ Examples completed!" +:+ Printer.nl) ;;
  echo "Next Steps:" ;;
  echo "  - Integrate client into your Python app" ;;
  echo "  - Add error handling and retries" ;;
  echo "  - See docs/guides/INTEGRATION.md for more patterns".

(** What [main] does once the health check has passed. *)
Definition examples (client : SnowRailClient.t) : M World unit :=
  echo "Example 1: Validating trusted URL..." ;;
  echo "URL: https://api.stripe.com" ;;
  validate_and_print client "https://api.stripe.com" ;;
  echo (Printer.nl +:+ "Example 2: Validating suspicious URL...") ;;
  echo "URL: http://free-money.xyz" ;;
  validate_and_print client "http://free-money.xyz" ;;
  echo (Printer.nl +:+ "Example 3: Creating payment intent...") ;;
  echo "(Skipping - requires wallet addresses)" ;;
  echo ("See docs/api/ENDPOINTS.md for full payment flow" +:+ Printer.nl) ;;
  batch client.

(** An exception that leaves [main] is uncaught. *)
Definition lift {A : Type} (m : M World A) : World -> (Stop + A) * World :=
  fun w =>
    match m w with
    | (inl e, w') => (inl (Uncaught e), w')
    | (inr a, w') => (inr a, w')
    end.

Definition and_then {A B : Type} (m : World -> (Stop + A) * World)
    (k : A -> World -> (Stop + B) * World) : World -> (Stop + B) * World :=
  fun w =>
    match m w with
    | (inl stop, w') => (inl stop, w')
    | (inr a, w') => k a w'
    end.

Definition main : World -> (Stop + unit) * World :=
  and_then (lift (echo ("🐍 SnowRail Python Client Example" +:+ Printer.nl))) (fun _ =>
  let client :=
    SnowRailClient.__init__ library_headers (Some "http://localhost:3000") in
  and_then (lift (echo "Checking API health...")) (fun _ =>
  and_then (check_health client) (fun _ =>
  lift (examples client)))).

(** The requests of a full run, in order. *)
Definition script_requests (client : SnowRailClient.t) : list Request :=
  expected_request client SnowRailClient.HealthCheck ::
  expected_request client
    (SnowRailClient.ValidateUrl "https://api.stripe.com" (Some 100)) ::
  expected_request client
    (SnowRailClient.ValidateUrl "http://free-money.xyz" (Some 100)) ::
  map (fun url => expected_request client (SnowRailClient.ValidateUrl url None))
      urls.

End Run.

Arguments mkWorld {Server} _ _.
Arguments net {Server} _.
Arguments stdout {Server} _.

End Script.

(* ===================================================================== *)
(** ** The traffic of a run *)
(* ===================================================================== *)

Module Traffic.

Section Sends.

Context {Server : Type} {E A : Type}.

(** [m] adds exactly [reqs] to the traffic, however it ends. *)
Definition sends_exactly (m : Script.World Server -> (E + A) * Script.World Server)
    (reqs : list Request) : Prop :=
  forall w, sent (Script.net (snd (m w))) = sent (Script.net w) ++ reqs.

(** [m] adds [reqs] to the traffic when it returns, and the first so many
    of them when it stops early. *)
Definition sends_prefix (m : Script.World Server -> (E + A) * Script.World Server)
    (reqs : list Request) : Prop :=
  forall w,
    (exists k : nat,
       sent (Script.net (snd (m w))) = sent (Script.net w) ++ firstn k reqs) /\
    (forall a : A, fst (m w) = inr a ->
       sent (Script.net (snd (m w))) = sent (Script.net w) ++ reqs).

End Sends.

End Traffic.

(* ===================================================================== *)
(** ** The printed report as a list of lines *)
(* ===================================================================== *)

Module Report.

(** The items of an optional list member: none when the member is absent,
    the items of the list when it holds one, undefined otherwise. *)
Definition items_of (o : option JSON) : option (list JSON) :=
  match o with
  | None => Some []
  | Some (JArr items) => Some items
  | Some _ => None
  end.

(** The lines of the [Blocked Reasons] or [Warnings] part: nothing for an
    empty list, else the heading and one line per item. *)
Definition part (str : JSON -> string) (heading : string) (items : list JSON)
  : list string :=
  match items with
  | [] => []
  | _ => (Printer.nl +:+ heading) :: map (fun v => "  - " +:+ str v) items
  end.

(** The line of one security check; [JNull] stands in for a missing
    member. *)
Definition check_line (str : JSON -> string) (check : JSON) : string :=
  let member k :=
    match check with
    | JObj fields => default JNull (dict_get k fields)
    | _ => JNull
    end in
  "  " +:+ (if truthy (member "passed") then "✓" else "✗") +:+ " " +:+
  str (member "name") +:+ ": " +:+ str (member "score") +:+ "/100".

(** A printing computation appends when it leaves what was printed before
    in place and behaves the same whatever that was. *)
Definition appends {A : Type} (m : M Printer.Stdout A) : Prop :=
  forall out : Printer.Stdout, m out = (fst (m []), out ++ snd (m [])).

(** The members [print_validation_result] reads. *)
Definition members_read : list string :=
  Printer.required_keys ++ ["blockedReasons"; "warnings"; "checks"].

End Report.

(* ===================================================================== *)
(** ** Servers and inputs for the worked instances of the example run *)
(* ===================================================================== *)

Module Scenarios.

(** A server nobody listens on. *)
Definition refusing : Request -> nat -> (string + Response) * nat :=
  fun _ attempts => (inl "connection refused", S attempts).

(** A validation result as the data model has it. *)
Definition full_result : list (string * JSON) :=
  [("url", JStr "https://api.stripe.com"); ("canPay", JBool true);
   ("trustScore", JNum 95); ("risk", JStr "low");
   ("decision", JStr "allow"); ("duration", JNum 12);
   ("blockedReasons", JArr []);
   ("warnings", JArr [JStr "new domain"]);
   ("checks", JArr [JObj [("name", JStr "tls"); ("passed", JBool true);
                          ("score", JNum 100)];
                    JObj [("name", JStr "age"); ("passed", JBool false);
                          ("score", JNum 40)]])].

(** The same with a member the printer does not know. *)
Definition result_with_extra_member : list (string * JSON) :=
  ("requestId", JStr "r-17") :: full_result.

(** A server that answers the health check and validates every URL with
    the result above. *)
Definition sentinel : Request -> nat -> (string + Response) * nat :=
  fun req served =>
    match verb req with
    | GET =>
        (inr {| status_code := 200;
                content_json := Some (JObj [("status", JStr "ok");
                                            ("treasury", JStr "funded")]) |},
         S served)
    | POST =>
        (inr {| status_code := 200; content_json := Some (JObj full_result) |},
         S served)
    end.

(** A network on which the first request is answered with a temporary
    redirect to another URL of the same host and every later one with the
    health report.  The state counts the requests answered. *)
Definition moved_once : Request -> nat -> (string + Redirects.Reply) * nat :=
  fun _ answered =>
    match answered with
    | O =>
        (inr {| Redirects.response :=
                  {| status_code := 307; content_json := None |};
                Redirects.location := Some "http://localhost:3000/v2/health" |},
         1%nat)
    | S _ =>
        (inr {| Redirects.response :=
                  {| status_code := 200;
                     content_json := Some (JObj [("status", JStr "ok")]) |};
                Redirects.location := None |},
         S answered)
    end.

(** A session over that network, nothing sent yet. *)
Definition quiet_wire : Net (Redirects.Wire nat) :=
  mkNet [] (Redirects.mkWire [] 0%nat).

Definition library_headers : list (string * string) :=
  [("User-Agent", "python-requests/2.31.0");
   ("Accept-Encoding", "gzip, deflate");
   ("Accept", "*/*");
   ("Connection", "keep-alive")].

Definition start : Script.World nat := Script.mkWorld Examples.fresh_net [].

Definition message (w : Script.World nat) (e : Exn) : string :=
  match e with
  | HTTPError status => pretty status +:+ " Error"
  | _ => "error"
  end.

(** A sort that leaves the rows as they are; the properties below do not
    depend on the order of the table. *)
Definition unsorted (rows : list Script.Row) : Exn + list Script.Row := inr rows.

Definition main (serve : Request -> nat -> (string + Response) * nat) :=
  Script.main nat serve library_headers Examples.plain_str message unsorted.

End Scenarios.

(* ===================================================================== *)
(** * Properties of the client *)
(* ===================================================================== *)

Section ClientProperties.

Context {Server : Type}.
Variable serve : Request -> Server -> (string + Response) * Server.

Local Abbreviation invoke := (SnowRailClient.invoke serve).

(** Every method is one session call for the request of the table,
    followed by [raise_for_status] and [json]. *)
Lemma invoke_unfold (self : SnowRailClient.t) (c : SnowRailClient.Call) (n : Net Server) :
  invoke self c n =
  (response <- send serve (expected_request self c) ;;
   raise_for_status response ;;
   json response) n.
Proof. destruct c; reflexivity. Qed.

(** What a call leaves behind and hands back, by the outcome of its one
    session call. *)
Lemma invoke_outcome (self : SnowRailClient.t) (c : SnowRailClient.Call) (n : Net Server) :
  let req := expected_request self c in
  let n' := mkNet (sent n ++ [req]) (snd (serve req (remote n))) in
  invoke self c n =
  match fst (serve req (remote n)) with
  | inl why => (inl (ConnectionError why), n')
  | inr resp =>
      if (400 <=? status_code resp) && (status_code resp <? 600) then
        (inl (HTTPError (status_code resp)), n')
      else
        match content_json resp with
        | Some j => (inr j, n')
        | None => (inl JSONDecodeError, n')
        end
  end.
Proof.
  intros req n'. rewrite invoke_unfold. fold req.
  unfold Py.bind, send. subst n'.
  destruct (serve req (remote n)) as [[why | resp] sv]; simpl; [reflexivity |].
  unfold raise_for_status, json, Py.raise, Py.ret.
  destruct (400 <=? status_code resp) eqn:E4,
           (status_code resp <? 500) eqn:E5,
           (500 <=? status_code resp) eqn:E5',
           (status_code resp <? 600) eqn:E6; simpl;
    try reflexivity; try lia;
    destruct (content_json resp); reflexivity.
Qed.

(** The traffic of a call, whatever its outcome. *)
Lemma invoke_sent (self : SnowRailClient.t) (c : SnowRailClient.Call) (n : Net Server) :
  sent (snd (invoke self c n)) = sent n ++ [expected_request self c].
Proof.
  pose proof (invoke_outcome self c n) as H. cbv zeta in H. rewrite H.
  destruct (fst (serve (expected_request self c) (remote n))) as [why | resp];
    [reflexivity |].
  destruct ((400 <=? status_code resp) && (status_code resp <? 600));
    [reflexivity |].
  destruct (content_json resp); reflexivity.
Qed.

(** C1. Each method issues the request of the endpoint table: the verb, the
    path appended to the client's base URL, and the JSON body (none for the
    two GETs) are those of the table, and that request is what the call adds
    to the session's traffic. *)
Theorem requests_match_endpoint_table
    (self : SnowRailClient.t) (c : SnowRailClient.Call) (n : Net Server) :
  sent (snd (invoke self c n)) = sent n ++ [expected_request self c] /\
  verb (expected_request self c) = fst (fst (endpoint_table c)) /\
  target (expected_request self c) =
    SnowRailClient.base_url self +:+ snd (fst (endpoint_table c)) /\
  body (expected_request self c) = JObj <$> snd (endpoint_table c).
Proof.
  split; [apply invoke_sent |].
  destruct c; repeat split; reflexivity.
Qed.

(** C9. [validate_url(url)] without an amount posts the body
    {"url": url, "amount": 100}. *)
Theorem validate_url_default_amount
    (self : SnowRailClient.t) (url : string) (n : Net Server) :
  sent (snd (SnowRailClient.validate_url serve self url None n)) =
  sent n ++
  [ {| verb := POST;
       target := SnowRailClient.base_url self +:+ "/v1/sentinel/validate";
       headers := session_headers (SnowRailClient.session self);
       body := Some (JObj [("url", JStr url); ("amount", JNum 100)]) |} ].
Proof.
  exact (invoke_sent self (SnowRailClient.ValidateUrl url None) n).
Qed.

(** C2, as the code has it. When the session hands back a response, a call
    raises [HTTPError] exactly for a status from 400 to 599; for every other
    status, 3xx included, it returns the parsed JSON body, and raises the
    decoding error when the body is not JSON. *)
Theorem raises_on_4xx_5xx_only
    (self : SnowRailClient.t) (c : SnowRailClient.Call) (n : Net Server)
    (resp : Response) :
  fst (serve (expected_request self c) (remote n)) = inr resp ->
  (400 <= status_code resp < 600 ->
     fst (invoke self c n) = inl (HTTPError (status_code resp))) /\
  (~ 400 <= status_code resp < 600 ->
     fst (invoke self c n) =
     match content_json resp with
     | Some j => inr j
     | None => inl JSONDecodeError
     end).
Proof.
  intros Hresp.
  pose proof (invoke_outcome self c n) as H. cbv zeta in H.
  rewrite Hresp in H. rewrite H. clear H.
  destruct (400 <=? status_code resp) eqn:Elo,
           (status_code resp <? 600) eqn:Ehi; simpl;
    (split; intros Hrange; [try reflexivity; lia |]);
    try (destruct (content_json resp); reflexivity).
  lia.
Qed.

End ClientProperties.

(** C2 at a concrete server: a 503 is raised, and a call on the healthy
    server returns the body. *)
Lemma raises_on_4xx_5xx_only_witness :
  fst (Examples.unavailable
         (expected_request Examples.client SnowRailClient.HealthCheck)
         (remote Examples.fresh_net))
  = inr {| status_code := 503;
           content_json := Some (JObj [("error", JStr "unavailable")]) |} /\
  400 <= 503 < 600 /\
  fst (SnowRailClient.invoke Examples.unavailable Examples.client
         SnowRailClient.HealthCheck Examples.fresh_net)
  = inl (HTTPError 503).
Proof.
  split; [reflexivity |]. split; [lia |].
  apply (raises_on_4xx_5xx_only Examples.unavailable Examples.client
           SnowRailClient.HealthCheck Examples.fresh_net
           {| status_code := 503;
              content_json := Some (JObj [("error", JStr "unavailable")]) |});
    [reflexivity | simpl; lia].
Defined.

(** C2 as stated fails: a 300 response with a JSON body is not raised, the
    body is returned as a value. *)
Lemma non_2xx_returned_as_value :
  ~ (forall (Server : Type)
            (serve : Request -> Server -> (string + Response) * Server)
            (self : SnowRailClient.t) (c : SnowRailClient.Call)
            (n : Net Server) (resp : Response),
       fst (serve (expected_request self c) (remote n)) = inr resp ->
       ~ 200 <= status_code resp < 300 ->
       exists e : Exn, fst (SnowRailClient.invoke serve self c n) = inl e).
Proof.
  intros H.
  destruct (H nat Examples.multiple_choices Examples.client
              SnowRailClient.HealthCheck Examples.fresh_net
              {| status_code := 300;
                 content_json := Some (JObj [("choices", JArr [])]) |}
              eq_refl ltac:(simpl; lia)) as [e He].
  vm_compute in He. discriminate He.
Qed.


(* ===================================================================== *)
(** * One session call, redirects on the wire, no recovery *)
(* ===================================================================== *)

Section OverTheWire.

Import Redirects.

Context {W : Type}.
Variable exchange : Request -> W -> (string + Reply) * W.
Variable follow_up : Request -> Reply -> option Request.

Local Abbreviation session := (session_call exchange follow_up).

(** A session call puts its request on the wire, and after it one request
    per redirect followed, no more than allowed. *)
Lemma send_following_on_wire (allowed : nat) (req : Request) (s : Wire W) :
  exists followed : list Request,
    on_wire (snd (send_following exchange follow_up allowed req s)) =
      on_wire s ++ req :: followed /\
    (length followed <= allowed)%nat.
Proof.
  revert req s. induction allowed as [| allowed IH]; intros req s; simpl;
    destruct (exchange req (far s)) as [[why | rp] w];
    try (exists []; split; [reflexivity | simpl; lia]);
    destruct (follow_up req rp) as [req' |];
    try (exists []; split; [reflexivity | simpl; lia]).
  destruct (IH req' {| on_wire := on_wire s ++ [req]; far := w |})
    as (followed & Hwire & Hlen).
  exists (req' :: followed). split.
  - rewrite Hwire. simpl. rewrite <- app_assoc. reflexivity.
  - simpl. lia.
Qed.


End OverTheWire.



(* ===================================================================== *)
(** * The stored base URL *)
(* ===================================================================== *)

Section BaseUrl.

Local Abbreviation slashes := (repeat_char "/").

Lemma mem_char_slash (a : ascii) : mem_char a "/" = true -> a = "/"%char.
Proof.
  unfold mem_char. simpl. rewrite orb_false_r. apply Ascii.eqb_eq.
Qed.

Lemma rstrip_slashes (k : nat) : rstrip "/" (slashes k) = "".
Proof.
  induction k as [| k IH]; [reflexivity |].
  simpl. rewrite IH. reflexivity.
Qed.

(** Appending slashes does not change what [rstrip] keeps. *)
Lemma rstrip_app_slashes (b : string) (k : nat) :
  rstrip "/" (b +:+ slashes k) = rstrip "/" b.
Proof.
  induction b as [| a b IH]; simpl.
  - apply rstrip_slashes.
  - rewrite IH. reflexivity.
Qed.

(** What [rstrip] removes is a run of slashes. *)
Lemma rstrip_decompose (b : string) :
  exists k : nat, b = rstrip "/" b +:+ slashes k.
Proof.
  induction b as [| a b [k IH]].
  - exists 0%nat. reflexivity.
  - simpl. destruct (is_empty (rstrip "/" b) && mem_char a "/") eqn:E.
    + apply andb_true_iff in E as [Hemp Ha].
      apply mem_char_slash in Ha. subst a.
      destruct (rstrip "/" b); [| discriminate Hemp].
      exists (S k). change (String "/" b = String "/" (slashes k)).
      f_equal. exact IH.
    + exists k. change (String a b = String a (rstrip "/" b +:+ slashes k)).
      f_equal. exact IH.
Qed.

(** What [rstrip] keeps does not end in a slash. *)
Lemma rstrip_no_trailing_slash (b : string) :
  ends_with "/" (rstrip "/" b) = false.
Proof.
  induction b as [| a b IH]; [reflexivity |].
  simpl. destruct (rstrip "/" b) as [| a' r'] eqn:Er; simpl.
  - destruct (mem_char a "/") eqn:Ea; [reflexivity |].
    unfold mem_char in Ea. simpl in Ea. rewrite orb_false_r in Ea. exact Ea.
  - exact IH.
Qed.

(** C7. The constructor stores the base URL without its trailing slashes:
    the stored string does not end in a slash and differs from the argument
    by a run of slashes only.  Two base URLs that differ only in trailing
    slashes give the same client, and every method then sends the same
    requests, character for character, and behaves the same. *)
Theorem base_url_trailing_slashes_ignored
    (library_headers : list (string * string)) (b : string) (k1 k2 : nat) :
  SnowRailClient.base_url (SnowRailClient.__init__ library_headers (Some b))
    = rstrip "/" b /\
  ends_with "/"
    (SnowRailClient.base_url (SnowRailClient.__init__ library_headers (Some b)))
    = false /\
  (exists k : nat,
     b = SnowRailClient.base_url
           (SnowRailClient.__init__ library_headers (Some b)) +:+ slashes k) /\
  SnowRailClient.__init__ library_headers (Some (b +:+ slashes k1)) =
  SnowRailClient.__init__ library_headers (Some (b +:+ slashes k2)) /\
  (forall (Server : Type)
          (serve : Request -> Server -> (string + Response) * Server)
          (c : SnowRailClient.Call) (n : Net Server),
     SnowRailClient.invoke serve
       (SnowRailClient.__init__ library_headers (Some (b +:+ slashes k1))) c n =
     SnowRailClient.invoke serve
       (SnowRailClient.__init__ library_headers (Some (b +:+ slashes k2))) c n /\
     target (expected_request
               (SnowRailClient.__init__ library_headers (Some (b +:+ slashes k1))) c) =
     target (expected_request
               (SnowRailClient.__init__ library_headers (Some (b +:+ slashes k2))) c)).
Proof.
  assert (Hsame :
    SnowRailClient.__init__ library_headers (Some (b +:+ slashes k1)) =
    SnowRailClient.__init__ library_headers (Some (b +:+ slashes k2))).
  { unfold SnowRailClient.__init__. simpl.
    rewrite !rstrip_app_slashes. reflexivity. }
  split; [reflexivity |].
  split; [apply rstrip_no_trailing_slash |].
  split; [apply rstrip_decompose |].
  split; [exact Hsame |].
  intros Server serve c n. rewrite Hsame. split; reflexivity.
Qed.

End BaseUrl.

(* ===================================================================== *)
(** * Properties of [print_validation_result] *)
(* ===================================================================== *)

Section PrinterProperties.

Import Printer.

Variable str : JSON -> string.

Lemma bind_print {A : Type} (line : string) (k : unit -> M Stdout A) (out : Stdout) :
  Py.bind (print line) k out = k tt (out ++ [line]).
Proof. reflexivity. Qed.

Lemma bind_returns {A B : Type} (m : M Stdout A) (k : A -> M Stdout B)
    (out out' : Stdout) (a : A) :
  m out = (inr a, out') -> Py.bind m k out = k a out'.
Proof. intros H. unfold Py.bind. rewrite H. reflexivity. Qed.

Lemma bind_raises {A B : Type} (m : M Stdout A) (k : A -> M Stdout B)
    (out out' : Stdout) (e : Exn) :
  m out = (inl e, out') -> Py.bind m k out = (inl e, out').
Proof. intros H. unfold Py.bind. rewrite H. reflexivity. Qed.

Lemma subscript_present (d : list (string * JSON)) (k : string) (v : JSON)
    (out : Stdout) :
  dict_get k d = Some v -> subscript d k out = (inr v, out).
Proof. intros H. unfold subscript. rewrite H. reflexivity. Qed.

Lemma subscript_absent (d : list (string * JSON)) (k : string) (out : Stdout) :
  dict_get k d = None -> subscript d k out = (inl (KeyError k), out).
Proof. intros H. unfold subscript. rewrite H. reflexivity. Qed.

(** A loop whose body only prints runs to its end. *)
Lemma for_each_print {A : Type} (f : A -> string) (xs : list A) (out : Stdout) :
  for_each xs (fun x => print (f x)) out = (inr tt, out ++ map f xs).
Proof.
  revert out. induction xs as [| x xs IH]; intros out; simpl.
  - rewrite app_nil_r. reflexivity.
  - rewrite bind_print, IH, <- app_assoc. reflexivity.
Qed.

(** The block that prints [blockedReasons] or [warnings]. *)
Lemma optional_block_returns (k header : string) (f : JSON -> string)
    (result : list (string * JSON)) (out : Stdout) :
  absent_or loopable_or_falsy k result = true ->
  exists out' : Stdout,
    (if truthy (default JNull (dict_get k result)) then
       print header ;;
       v <- subscript result k ;;
       items <- iterate v ;;
       for_each items (fun x => print (f x))
     else Py.ret tt) out = (inr tt, out').
Proof.
  unfold absent_or. intros H.
  destruct (dict_get k result) as [v |] eqn:Ek; simpl;
    [| eexists; reflexivity].
  destruct (truthy v) eqn:Et; [| eexists; reflexivity].
  rewrite bind_print.
  rewrite (bind_returns _ _ _ _ _ (subscript_present _ _ _ _ Ek)).
  destruct v as [| b | z | s | items | fields]; simpl in H, Et;
    try (rewrite Et in H; discriminate H); try discriminate Et.
  - erewrite bind_returns by reflexivity. rewrite for_each_print. eexists; reflexivity.
  - erewrite bind_returns by reflexivity. rewrite for_each_print. eexists; reflexivity.
  - erewrite bind_returns by reflexivity. rewrite for_each_print. eexists; reflexivity.
Qed.

Lemma item_present (v : JSON) (k : string) (out : Stdout) :
  has_key k v = true -> exists w : JSON, item v k out = (inr w, out).
Proof.
  destruct v as [| b | z | s | items | fields]; simpl; try discriminate.
  intros H. unfold subscript.
  destruct (dict_get k fields) as [w |]; [| discriminate H].
  exists w. reflexivity.
Qed.

(** The loop over well-formed checks runs to its end. *)
Lemma checks_loop_returns (items : list JSON) (out : Stdout) :
  forallb printable_check items = true ->
  exists out' : Stdout,
    for_each items (fun check =>
      passed <- item check "passed" ;;
      let status := if truthy passed then "✓" else "✗" in
      name <- item check "name" ;;
      score <- item check "score" ;;
      print ("  " +:+ status +:+ " " +:+ str name +:+ ": " +:+ str score +:+ "/100"))
      out = (inr tt, out').
Proof.
  revert out. induction items as [| c items IH]; intros out H; simpl.
  - eexists; reflexivity.
  - simpl in H. apply andb_true_iff in H as [Hc Hrest].
    unfold printable_check in Hc.
    apply andb_true_iff in Hc as [Hc Hscore].
    apply andb_true_iff in Hc as [Hpassed Hname].
    destruct (item_present c "passed" out Hpassed) as [p Hp].
    destruct (item_present c "name" out Hname) as [nm Hn].
    destruct (item_present c "score" out Hscore) as [sc Hs].
    erewrite bind_returns;
      [| erewrite bind_returns by exact Hp; cbv zeta;
         erewrite bind_returns by exact Hn;
         erewrite bind_returns by exact Hs;
         reflexivity].
    apply IH. exact Hrest.
Qed.

(** What the loop over [checks] draws from. *)
Lemma checks_iterable (result : list (string * JSON)) (out : Stdout) :
  absent_or printable_checks "checks" result = true ->
  exists items : list JSON,
    iterate (default (JArr []) (dict_get "checks" result)) out = (inr items, out) /\
    forallb printable_check items = true.
Proof.
  unfold absent_or. intros H.
  destruct (dict_get "checks" result) as [v |]; simpl.
  - destruct v as [| b | z | s | items | fields]; simpl in H; try discriminate H.
    + destruct s; [| discriminate H]. exists []. split; reflexivity.
    + exists items. split; [reflexivity | exact H].
    + destruct fields; [| discriminate H]. exists []. split; reflexivity.
  - exists []. split; reflexivity.
Qed.

Lemma member_is_str (k : string) (result : list (string * JSON)) :
  member_is is_str k result = true ->
  exists s : string, dict_get k result = Some (JStr s).
Proof.
  unfold member_is. destruct (dict_get k result) as [v |]; [| discriminate].
  destruct v; try discriminate. intros _. eexists; reflexivity.
Qed.

Lemma absent_or_is_str (k : string) (result : list (string * JSON)) (v : JSON) :
  absent_or is_str k result = true -> dict_get k result = Some v ->
  exists s : string, v = JStr s.
Proof.
  unfold absent_or. intros H E. rewrite E in H.
  destruct v; try discriminate H. eexists; reflexivity.
Qed.

(** Run the printer up to the next point where it can raise. *)
Ltac run_prints := repeat (rewrite bind_print; cbv beta).

Ltac run_subscript E :=
  erewrite bind_returns by (apply subscript_present; exact E); cbv beta;
  run_prints.

Ltac run_upper :=
  erewrite bind_returns by reflexivity; cbv beta; run_prints.

(** C8, as the code has it. With the six required members present, [risk]
    and [decision] strings, and each of [blockedReasons], [warnings] and
    [checks] absent or of a shape the loops accept, the printer returns
    without raising.  When a required member is missing (the present ones
    among [risk] and [decision] being strings), it raises [KeyError] for
    the first missing one. *)
Theorem print_validation_result_raising
    (result : list (string * JSON)) (out : Stdout) :
  (first_missing result = None ->
   member_is is_str "risk" result = true ->
   member_is is_str "decision" result = true ->
   absent_or loopable_or_falsy "blockedReasons" result = true ->
   absent_or loopable_or_falsy "warnings" result = true ->
   absent_or printable_checks "checks" result = true ->
   raised (print_validation_result str result out) = None) /\
  (forall k : string,
     first_missing result = Some k ->
     absent_or is_str "risk" result = true ->
     absent_or is_str "decision" result = true ->
     raised (print_validation_result str result out) = Some (KeyError k)).
Proof.
  unfold first_missing, required_keys. simpl find.
  split.
  - intros Hall Hrisk Hdecision Hblocked Hwarnings Hchecks.
    destruct (dict_get "url" result) as [v1 |] eqn:E1; [| discriminate Hall].
    destruct (dict_get "canPay" result) as [v2 |] eqn:E2; [| discriminate Hall].
    destruct (dict_get "trustScore" result) as [v3 |] eqn:E3; [| discriminate Hall].
    destruct (dict_get "duration" result) as [v6 |] eqn:E6;
      [| destruct (dict_get "risk" result), (dict_get "decision" result);
         discriminate Hall].
    destruct (member_is_str _ _ Hrisk) as [r E4].
    destruct (member_is_str _ _ Hdecision) as [d E5].
    unfold print_validation_result. run_prints.
    run_subscript E1. run_subscript E2. run_subscript E3.
    run_subscript E4. run_upper.
    run_subscript E5. run_upper.
    run_subscript E6.
    match goal with
    | |- context [Py.bind _ _ ?o] =>
        destruct (optional_block_returns "blockedReasons"
                    (nl +:+ "Blocked Reasons:")
                    (fun reason => "  - " +:+ str reason) result o Hblocked)
          as [o2 Eb]
    end.
    erewrite bind_returns by exact Eb. cbv beta.
    destruct (optional_block_returns "warnings" (nl +:+ "Warnings:")
                (fun warning => "  - " +:+ str warning) result o2 Hwarnings)
      as [o3 Ew].
    erewrite bind_returns by exact Ew. cbv beta. run_prints.
    match goal with
    | |- context [Py.bind _ _ ?o] =>
        destruct (checks_iterable result o Hchecks) as [items [Ei Hitems]];
        destruct (checks_loop_returns items o Hitems) as [o4 Ec]
    end.
    erewrite bind_returns by exact Ei. cbv beta.
    erewrite bind_returns by exact Ec. cbv beta.
    reflexivity.
  - intros k Hk Hrisk Hdecision.
    unfold print_validation_result. run_prints.
    destruct (dict_get "url" result) as [v1 |] eqn:E1;
      [| injection Hk as <-;
         erewrite bind_raises by (apply subscript_absent; exact E1); reflexivity].
    run_subscript E1.
    destruct (dict_get "canPay" result) as [v2 |] eqn:E2;
      [| injection Hk as <-;
         erewrite bind_raises by (apply subscript_absent; exact E2); reflexivity].
    run_subscript E2.
    destruct (dict_get "trustScore" result) as [v3 |] eqn:E3;
      [| injection Hk as <-;
         erewrite bind_raises by (apply subscript_absent; exact E3); reflexivity].
    run_subscript E3.
    destruct (dict_get "risk" result) as [v4 |] eqn:E4;
      [| injection Hk as <-;
         erewrite bind_raises by (apply subscript_absent; exact E4); reflexivity].
    destruct (absent_or_is_str _ _ _ Hrisk E4) as [r ->].
    run_subscript E4. run_upper.
    destruct (dict_get "decision" result) as [v5 |] eqn:E5;
      [| injection Hk as <-;
         erewrite bind_raises by (apply subscript_absent; exact E5); reflexivity].
    destruct (absent_or_is_str _ _ _ Hdecision E5) as [d ->].
    run_subscript E5. run_upper.
    destruct (dict_get "duration" result) as [v6 |] eqn:E6;
      [discriminate Hk |].
    injection Hk as <-.
    erewrite bind_raises by (apply subscript_absent; exact E6). reflexivity.
Qed.

End PrinterProperties.

(** C8 at concrete results: the bare result prints without raising although
    [blockedReasons], [warnings] and [checks] are absent, and a result that
    lacks [decision] raises [KeyError] for it. *)
Lemma print_validation_result_raising_witness :
  Printer.raised
    (Printer.print_validation_result Examples.plain_str Examples.bare_result [])
  = None /\
  Printer.first_missing Examples.result_without_decision = Some "decision" /\
  Printer.raised
    (Printer.print_validation_result Examples.plain_str
       Examples.result_without_decision [])
  = Some (KeyError "decision").
Proof.
  split; [| split]; [| reflexivity |].
  - apply (proj1 (print_validation_result_raising Examples.plain_str
                    Examples.bare_result [])); reflexivity.
  - apply (proj2 (print_validation_result_raising Examples.plain_str
                    Examples.result_without_decision []) "decision");
      reflexivity.
Defined.

(** C8 as stated fails: the six required members, with [risk] and
    [decision] strings, do not keep the printer from raising.  A check
    without its [passed] member raises [KeyError]. *)
Lemma required_members_do_not_suffice :
  ~ (forall (str : JSON -> string) (result : list (string * JSON))
            (out : Printer.Stdout),
       Printer.first_missing result = None ->
       Printer.member_is Printer.is_str "risk" result = true ->
       Printer.member_is Printer.is_str "decision" result = true ->
       Printer.raised (Printer.print_validation_result str result out) = None).
Proof.
  intros H.
  specialize (H Examples.plain_str Examples.result_with_partial_check []
                eq_refl eq_refl eq_refl).
  vm_compute in H. discriminate H.
Qed.

(* ===================================================================== *)
(** * Properties of the risk evaluator *)
(* ===================================================================== *)

Section SentinelProperties.

Import Sentinel.

Lemma total_weight_nonneg (battery : list Check) : 0 <= total_weight battery.
Proof.
  induction battery as [| c battery IH]; simpl; lia.
Qed.

(** The weighted sum of in-range scores lies between 0 and 100 times the
    total weight. *)
Lemma weighted_sum_bounds (battery : list Check) (u : string) (amount : Z) :
  in_range battery ->
  0 <= weighted_sum battery u amount <= 100 * total_weight battery.
Proof.
  unfold in_range. induction 1 as [| c battery Hc _ IH]; simpl; [lia |].
  specialize (Hc u amount). nia.
Qed.

Lemma aggregate_range (battery : list Check) (u : string) (amount : Z) :
  in_range battery -> 0 <= aggregate battery u amount <= 100.
Proof.
  intros Hin. unfold aggregate.
  destruct (total_weight battery =? 0) eqn:E; [lia |].
  apply Z.eqb_neq in E.
  pose proof (total_weight_nonneg battery) as Hw.
  pose proof (weighted_sum_bounds battery u amount Hin) as [Hlo Hhi].
  split.
  - apply Z.div_pos; lia.
  - apply Z.div_le_upper_bound; lia.
Qed.

Lemma risk_tier_low (s : Z) : risk_tier s = low <-> 70 <= s.
Proof.
  unfold risk_tier.
  destruct (70 <=? s) eqn:E70; [split; [lia | reflexivity] |].
  destruct (40 <=? s); split; try discriminate; lia.
Qed.

Lemma risk_tier_medium (s : Z) : risk_tier s = medium <-> 40 <= s <= 69.
Proof.
  unfold risk_tier.
  destruct (70 <=? s) eqn:E70; [split; [discriminate | lia] |].
  destruct (40 <=? s) eqn:E40; split; try discriminate; try reflexivity; lia.
Qed.

Lemma risk_tier_high (s : Z) : risk_tier s = high <-> s < 40.
Proof.
  unfold risk_tier.
  destruct (70 <=? s) eqn:E70; [split; [discriminate | lia] |].
  destruct (40 <=? s) eqn:E40; split; try discriminate; try reflexivity; lia.
Qed.

Lemma no_hard_block_spec (battery : list Check) (u : string) (amount : Z) :
  no_hard_block battery u amount = true <->
  Forall (fun c => hard_block c = true -> fst (run c u amount) = true) battery.
Proof.
  unfold no_hard_block. rewrite List.forallb_forall, List.Forall_forall.
  split; intros H c Hc.
  - intros Hhard. specialize (H c Hc). rewrite Hhard in H. exact H.
  - specialize (H c Hc). destruct (hard_block c); [apply H; reflexivity | reflexivity].
Qed.

(** C6. For a well-formed URL and any amount, validation returns a result
    whose trust score lies between 0 and 100, whose tier is the one the
    thresholds give that score (low from 70, medium from 40 to 69, high
    below 40), and where payment is allowed exactly when no hard-block
    check fails and the score reaches the configured minimum. *)
Theorem validation_score_tier_canPay
    (battery : list Check) (min_score : Z) (well_formed : string -> bool)
    (u : string) (amount : Z) :
  in_range battery ->
  well_formed u = true ->
  exists r : ValidationResult,
    validate battery min_score well_formed u amount = inr r /\
    0 <= trustScore r <= 100 /\
    (risk r = low <-> 70 <= trustScore r) /\
    (risk r = medium <-> 40 <= trustScore r <= 69) /\
    (risk r = high <-> trustScore r < 40) /\
    (canPay r = true <->
       Forall (fun c => hard_block c = true -> fst (run c u amount) = true)
              battery /\
       min_score <= trustScore r).
Proof.
  intros Hin Hwf. unfold validate. rewrite Hwf.
  eexists. split; [reflexivity |]. simpl.
  split; [apply aggregate_range; exact Hin |].
  split; [apply risk_tier_low |].
  split; [apply risk_tier_medium |].
  split; [apply risk_tier_high |].
  rewrite andb_true_iff, no_hard_block_spec, Z.leb_le. reflexivity.
Qed.

End SentinelProperties.

Lemma example_battery_in_range : Sentinel.in_range Examples.battery.
Proof.
  unfold Sentinel.in_range, Examples.battery.
  apply List.Forall_cons; [| apply List.Forall_cons; [| apply List.Forall_nil]];
    intros u amount; simpl.
  - destruct (String.prefix "https://" u); simpl; lia.
  - destruct (amount <=? 1000); simpl; lia.
Defined.

(** C6 at a concrete battery: the trusted URL of the example run. *)
Lemma validation_score_tier_canPay_witness :
  Examples.has_scheme "https://api.stripe.com" = true /\
  exists r : Sentinel.ValidationResult,
    Sentinel.validate Examples.battery 60 Examples.has_scheme
      "https://api.stripe.com" 100 = inr r /\
    0 <= Sentinel.trustScore r <= 100 /\
    (Sentinel.risk r = Sentinel.low <-> 70 <= Sentinel.trustScore r) /\
    (Sentinel.risk r = Sentinel.medium <-> 40 <= Sentinel.trustScore r <= 69) /\
    (Sentinel.risk r = Sentinel.high <-> Sentinel.trustScore r < 40) /\
    (Sentinel.canPay r = true <->
       Forall (fun c => Sentinel.hard_block c = true ->
                        fst (Sentinel.run c "https://api.stripe.com" 100) = true)
              Examples.battery /\
       60 <= Sentinel.trustScore r).
Proof.
  split; [reflexivity |].
  apply (validation_score_tier_canPay Examples.battery 60 Examples.has_scheme
           "https://api.stripe.com" 100 example_battery_in_range).
  reflexivity.
Defined.

(* ===================================================================== *)
(** * Properties of the intent ledger *)
(* ===================================================================== *)

Section LedgerProperties.

Import Ledger.

Variable ttl : Z.
Variable signing_domain : string.
Variable valid_address : string -> bool.
Variable verify : Authorization -> string -> string -> bool.
Variable settle : Intent -> option string.
Variable explorer : string -> string.

Local Abbreviation create := (Ledger.create ttl valid_address).
Local Abbreviation authorize := (Ledger.authorize signing_domain).
Local Abbreviation confirm :=
  (Ledger.confirm signing_domain verify settle explorer).
Local Abbreviation signature_ok := (Ledger.signature_ok signing_domain verify).
Local Abbreviation reachable :=
  (Ledger.reachable ttl signing_domain valid_address verify settle explorer).

Lemma consistent_init : consistent init.
Proof.
  split.
  - intros k i H. simpl in H. rewrite lookup_empty in H. discriminate H.
  - intros k. unfold settled_count. simpl. rewrite lookup_empty. reflexivity.
Qed.

(** Replacing a stored intent by one that is confirmed exactly when the old
    one was keeps the ledger consistent. *)
Lemma put_intent_consistent (st : State) (k : nat) (i i' : Intent) :
  consistent st ->
  intents st !! k = Some i ->
  is_confirmed (status i') = is_confirmed (status i) ->
  consistent (put_intent k i' st).
Proof.
  intros [Hbelow Hcount] Hk Hsame. split.
  - intros k' j. simpl. rewrite lookup_insert.
    destruct (decide (k = k')) as [<- | Hne]; intros Hj.
    + exact (Hbelow k i Hk).
    + exact (Hbelow k' j Hj).
  - intros k'. unfold settled_count. simpl. rewrite lookup_insert.
    specialize (Hcount k'). unfold settled_count in Hcount.
    destruct (decide (k = k')) as [<- | Hne]; [| exact Hcount].
    rewrite Hcount, Hk, Hsame. reflexivity.
Qed.

Lemma time_out_confirmed (now : Z) (i : Intent) :
  is_confirmed (status (time_out now i)) = is_confirmed (status i).
Proof.
  unfold time_out.
  destruct (is_open (status i) && (expiresAt i <? now)) eqn:E; [| reflexivity].
  apply andb_true_iff in E as [Hopen _].
  destruct (status i); try discriminate Hopen; reflexivity.
Qed.

Lemma create_consistent now u amt from to (st : State) :
  consistent st -> consistent (snd (create now u amt from to st)).
Proof.
  intros Hst. unfold Ledger.create.
  destruct ((0 <? amt) && valid_address from && valid_address to
            && negb (String.eqb from to)); [| exact Hst].
  destruct Hst as [Hbelow Hcount]. simpl. split.
  - intros k j. simpl. rewrite lookup_insert.
    destruct (decide (next_id st = k)) as [<- | Hne]; intros Hj; [lia |].
    specialize (Hbelow k j Hj). lia.
  - intros k. unfold settled_count. simpl. rewrite lookup_insert.
    specialize (Hcount k). unfold settled_count in Hcount.
    destruct (decide (next_id st = k)) as [<- | Hne]; [| exact Hcount].
    destruct (intents st !! next_id st) as [j |] eqn:Ej; [| exact Hcount].
    specialize (Hbelow _ _ Ej). lia.
Qed.

Lemma authorize_consistent now k (st : State) :
  consistent st -> consistent (snd (authorize now k st)).
Proof.
  intros Hst. unfold Ledger.authorize.
  destruct (intents st !! k) as [i |] eqn:Ek; [| exact Hst].
  destruct (expiresAt i <? now).
  - simpl. apply (put_intent_consistent st k i); auto using time_out_confirmed.
  - destruct (status i) eqn:Es; simpl; try exact Hst;
      apply (put_intent_consistent st k i); auto; rewrite Es; reflexivity.
Qed.

Lemma count_occ_snoc (l : list nat) (k k' : nat) :
  count_occ Nat.eq_dec (l ++ [k]) k' =
  (count_occ Nat.eq_dec l k' + if decide (k = k') then 1 else 0)%nat.
Proof.
  rewrite count_occ_app. simpl.
  destruct (Nat.eq_dec k k'), (decide (k = k')); try contradiction; reflexivity.
Qed.

Lemma confirm_consistent now k signature (st : State) :
  consistent st -> consistent (snd (confirm now k signature st)).
Proof.
  intros Hst. unfold Ledger.confirm.
  destruct (intents st !! k) as [i |] eqn:Ek; [| exact Hst].
  destruct (is_confirmed (status i) && Ledger.signature_ok _ _ i signature).
  { destruct (receipts st !! k); exact Hst. }
  destruct (expiresAt i <? now).
  { simpl. apply (put_intent_consistent st k i); auto using time_out_confirmed. }
  destruct (status i) eqn:Es; simpl; try exact Hst.
  destruct (Ledger.signature_ok _ _ i signature);
    [| simpl; apply (put_intent_consistent st k i); auto; rewrite Es; reflexivity].
  destruct (settle i) as [tx |];
    [| simpl; apply (put_intent_consistent st k i); auto; rewrite Es; reflexivity].
  destruct Hst as [Hbelow Hcount]. simpl. split.
  - intros k' j. simpl. rewrite lookup_insert.
    destruct (decide (k = k')) as [<- | Hne]; intros Hj.
    + exact (Hbelow k i Ek).
    + exact (Hbelow k' j Hj).
  - intros k'. unfold settled_count. simpl.
    rewrite lookup_insert, count_occ_snoc.
    specialize (Hcount k'). unfold settled_count in Hcount.
    destruct (decide (k = k')) as [<- | Hne]; [| lia].
    rewrite Hcount, Ek, Es. reflexivity.
Qed.

(** Every ledger that operations produce from the empty one is
    consistent. *)
Lemma reachable_consistent (st : State) : reachable st -> consistent st.
Proof.
  induction 1 as [| st st' _ IH Hstep]; [apply consistent_init |].
  destruct Hstep.
  - apply create_consistent, IH.
  - apply authorize_consistent, IH.
  - apply confirm_consistent, IH.
Qed.

(** A confirm that returns a receipt leaves the intent confirmed, with that
    receipt on file and the signature valid for the stored intent. *)
Lemma confirm_receipt now k signature (st st1 : State) (r : Receipt) :
  confirm now k signature st = (inr r, st1) ->
  exists i : Intent,
    intents st1 !! k = Some i /\
    is_confirmed (status i) = true /\
    signature_ok i signature = true /\
    receipts st1 !! k = Some r.
Proof.
  unfold Ledger.confirm.
  destruct (intents st !! k) as [i |] eqn:Ek; [| discriminate].
  destruct (is_confirmed (status i) && Ledger.signature_ok _ _ i signature) eqn:Eretry.
  { apply andb_true_iff in Eretry as [Hc Hs].
    destruct (receipts st !! k) as [r' |] eqn:Er; [| discriminate].
    intros [= <- <-]. exists i. auto. }
  destruct (expiresAt i <? now); [discriminate |].
  destruct (status i) eqn:Es; try discriminate.
  destruct (Ledger.signature_ok _ _ i signature) eqn:Hs; [| discriminate].
  destruct (settle i) as [tx |]; [| discriminate].
  intros [= <- <-]. exists (with_status confirmed i). simpl.
  rewrite !lookup_insert_eq. auto.
Qed.

(** Confirm does return a receipt: on an authorized, unexpired intent, with
    a valid signature and a settlement that goes through, it produces the
    receipt for the intent's amount and recipient. *)
Lemma confirm_authorized_returns now k signature (st : State) (i : Intent) (tx : string) :
  intents st !! k = Some i ->
  status i = authorized ->
  now <= expiresAt i ->
  signature_ok i signature = true ->
  settle i = Some tx ->
  fst (confirm now k signature st) =
  inr {| txHash := tx; explorerUrl := explorer tx; confirmedAt := now;
         paid_amount := amount i; paid_to := recipient i |}.
Proof.
  intros Hk Hs Hnow Hsig Htx. unfold Ledger.confirm.
  rewrite Hk, Hs, Hsig, Htx. simpl.
  destruct (expiresAt i <? now) eqn:E; [lia | reflexivity].
Qed.

(** C4. Confirm is idempotent: on a ledger produced by the operations, when
    a confirm returns a receipt, confirming again with the same intent id
    and signature, at any time, returns the same receipt and changes
    nothing, and the log then holds exactly one settlement of the
    intent. *)
Theorem confirm_idempotent
    (st st1 : State) (t1 t2 : Z) (k : nat) (signature : string) (r : Receipt) :
  reachable st ->
  confirm t1 k signature st = (inr r, st1) ->
  confirm t2 k signature st1 = (inr r, st1) /\
  settled_count k st1 = 1%nat.
Proof.
  intros Hreach Hfirst.
  assert (Hcons : consistent st1).
  { apply reachable_consistent. apply (reach_step _ _ _ _ _ _ st); [exact Hreach |].
    replace st1 with (snd (confirm t1 k signature st)) by (rewrite Hfirst; reflexivity).
    apply step_confirm. }
  destruct (confirm_receipt _ _ _ _ _ _ Hfirst) as (i & Hk & Hc & Hs & Hr).
  split.
  - unfold Ledger.confirm. rewrite Hk, Hc, Hs, Hr. reflexivity.
  - destruct Hcons as [_ Hcount]. rewrite Hcount, Hk, Hc. reflexivity.
Qed.

Lemma receipts_on_file_init : receipts_on_file init.
Proof.
  intros k i H. simpl in H. rewrite lookup_empty in H. discriminate H.
Qed.

Lemma put_intent_receipts (st : State) (k : nat) (i i' : Intent) :
  receipts_on_file st ->
  intents st !! k = Some i ->
  is_confirmed (status i') = is_confirmed (status i) ->
  receipts_on_file (put_intent k i' st).
Proof.
  intros Hst Hk Hsame k' j. simpl. rewrite lookup_insert.
  destruct (decide (k = k')) as [<- | Hne].
  - intros [= <-] Hc. rewrite Hsame in Hc. exact (Hst k i Hk Hc).
  - apply Hst.
Qed.

Lemma create_receipts now u amt from to (st : State) :
  receipts_on_file st -> receipts_on_file (snd (create now u amt from to st)).
Proof.
  intros Hst. unfold Ledger.create.
  destruct ((0 <? amt) && valid_address from && valid_address to
            && negb (String.eqb from to)); [| exact Hst].
  intros k j. simpl. rewrite lookup_insert.
  destruct (decide (next_id st = k)) as [<- | Hne].
  - intros [= <-] Hc. discriminate Hc.
  - apply Hst.
Qed.

Lemma authorize_receipts now k (st : State) :
  receipts_on_file st -> receipts_on_file (snd (authorize now k st)).
Proof.
  intros Hst. unfold Ledger.authorize.
  destruct (intents st !! k) as [i |] eqn:Ek; [| exact Hst].
  destruct (expiresAt i <? now).
  - simpl. apply (put_intent_receipts st k i); auto using time_out_confirmed.
  - destruct (status i) eqn:Es; simpl; try exact Hst;
      apply (put_intent_receipts st k i); auto; rewrite Es; reflexivity.
Qed.

Lemma confirm_receipts now k signature (st : State) :
  receipts_on_file st -> receipts_on_file (snd (confirm now k signature st)).
Proof.
  intros Hst. unfold Ledger.confirm.
  destruct (intents st !! k) as [i |] eqn:Ek; [| exact Hst].
  destruct (is_confirmed (status i) && Ledger.signature_ok _ _ i signature).
  { destruct (receipts st !! k); exact Hst. }
  destruct (expiresAt i <? now).
  { simpl. apply (put_intent_receipts st k i); auto using time_out_confirmed. }
  destruct (status i) eqn:Es; simpl; try exact Hst.
  destruct (Ledger.signature_ok _ _ i signature);
    [| simpl; apply (put_intent_receipts st k i); auto; rewrite Es; reflexivity].
  destruct (settle i) as [tx |];
    [| simpl; apply (put_intent_receipts st k i); auto; rewrite Es; reflexivity].
  intros k' j. simpl. rewrite !lookup_insert.
  destruct (decide (k = k')) as [<- | Hne].
  - intros _ _. eexists. reflexivity.
  - apply Hst.
Qed.

(** On every ledger that operations produce from the empty one, a
    confirmed intent has its receipt on file. *)
Lemma reachable_receipts (st : State) : reachable st -> receipts_on_file st.
Proof.
  induction 1 as [| st st' _ IH Hstep]; [apply receipts_on_file_init |].
  destruct Hstep.
  - apply create_receipts, IH.
  - apply authorize_receipts, IH.
  - apply confirm_receipts, IH.
Qed.


End LedgerProperties.

Lemma example_ledger_reachable :
  Ledger.reachable Examples.ttl "SnowRail" Examples.valid_address
    Examples.verify Examples.settle Examples.explorer
    Examples.authorized_ledger.
Proof.
  unfold Examples.authorized_ledger, Examples.authorize, Examples.create.
  eapply Ledger.reach_step; [eapply Ledger.reach_step |].
  - apply Ledger.reach_init.
  - apply Ledger.step_create.
  - apply Ledger.step_authorize.
Defined.

(** C4 at a concrete ledger: the intent is confirmed at time 10, and the
    retry at time 5000, past the expiry, returns the same receipt. *)
Lemma confirm_idempotent_witness :
  Examples.confirm 10 0%nat Examples.good_signature Examples.authorized_ledger =
    (inr {| Ledger.txHash := "0xtx0";
            Ledger.explorerUrl := "https://explorer.example/tx/0xtx0";
            Ledger.confirmedAt := 10;
            Ledger.paid_amount := 100;
            Ledger.paid_to := "0xB0B" |},
     Examples.confirmed_ledger) /\
  Examples.confirm 5000 0%nat Examples.good_signature Examples.confirmed_ledger =
    (inr {| Ledger.txHash := "0xtx0";
            Ledger.explorerUrl := "https://explorer.example/tx/0xtx0";
            Ledger.confirmedAt := 10;
            Ledger.paid_amount := 100;
            Ledger.paid_to := "0xB0B" |},
     Examples.confirmed_ledger) /\
  Ledger.settled_count 0 Examples.confirmed_ledger = 1%nat.
Proof.
  split; [vm_compute; reflexivity |].
  apply (confirm_idempotent Examples.ttl "SnowRail" Examples.valid_address
           Examples.verify Examples.settle Examples.explorer
           Examples.authorized_ledger Examples.confirmed_ledger 10 5000 0%nat
           Examples.good_signature _ example_ledger_reachable).
  vm_compute; reflexivity.
Defined.

Lemma example_confirmed_ledger_reachable :
  Ledger.reachable Examples.ttl "SnowRail" Examples.valid_address
    Examples.verify Examples.settle Examples.explorer
    Examples.confirmed_ledger.
Proof.
  unfold Examples.confirmed_ledger, Examples.confirm.
  eapply Ledger.reach_step; [exact example_ledger_reachable |].
  apply Ledger.step_confirm.
Defined.



(* ===================================================================== *)
(** * Further properties of the client *)
(* ===================================================================== *)

Section ClientHeaders.

Import Script.

Lemma same_name_refl (k : string) : same_name k k = true.
Proof. unfold same_name. apply String.eqb_refl. Qed.

(** Names that are the same to the dict are the same to every lookup. *)
Lemma same_name_trans_false (k k0 k' : string) :
  same_name k k0 = true -> same_name k' k = false -> same_name k' k0 = false.
Proof.
  unfold same_name. intros H. apply String.eqb_eq in H. rewrite H. tauto.
Qed.

(** A header that was set is what a lookup under its name finds, in
    whatever case the name was there before. *)
Lemma header_get_set_eq (k v : string) (hs : list (string * string)) :
  header_get k (header_set k v hs) = Some v.
Proof.
  induction hs as [| [k' v'] hs IH]; simpl.
  - rewrite same_name_refl. reflexivity.
  - destruct (same_name k k') eqn:E; simpl.
    + rewrite same_name_refl. reflexivity.
    + rewrite E. exact IH.
Qed.

(** Setting a header leaves the lookups under other names as they were. *)
Lemma header_get_set_ne (k k' v : string) (hs : list (string * string)) :
  same_name k' k = false ->
  header_get k' (header_set k v hs) = header_get k' hs.
Proof.
  intros Hne. induction hs as [| [k0 v0] hs IH]; simpl.
  - rewrite Hne. reflexivity.
  - destruct (same_name k k0) eqn:E; simpl.
    + rewrite Hne, (same_name_trans_false _ _ _ E Hne). reflexivity.
    + rewrite IH. reflexivity.
Qed.

(** X1. Whatever headers a fresh session starts with, every request that
    a method of a constructed client sends, GET or POST, carries
    Content-Type application/json and the client's own User-Agent. *)
Theorem every_request_carries_client_headers
    (Server : Type) (serve : Request -> Server -> (string + Response) * Server)
    (library_headers : list (string * string)) (base_url : option string)
    (c : SnowRailClient.Call) (n : Net Server) :
  exists req : Request,
    sent (snd (SnowRailClient.invoke serve
                 (SnowRailClient.__init__ library_headers base_url) c n))
      = sent n ++ [req] /\
    header_get "Content-Type" (headers req) = Some "application/json" /\
    header_get "User-Agent" (headers req) = Some "SnowRail-Python-Client/1.0".
Proof.
  eexists. split; [apply invoke_sent |].
  assert (Hh : headers (expected_request
                          (SnowRailClient.__init__ library_headers base_url) c)
               = header_set "User-Agent" "SnowRail-Python-Client/1.0"
                   (header_set "Content-Type" "application/json" library_headers)).
  { destruct c; reflexivity. }
  rewrite Hh. split.
  - rewrite header_get_set_ne by reflexivity. apply header_get_set_eq.
  - apply header_get_set_eq.
Qed.

Lemma rstrip_without_trailing_slash (b : string) :
  ends_with "/" b = false -> rstrip "/" b = b.
Proof.
  induction b as [| a b IH]; [reflexivity |].
  destruct b as [| a' b'].
  - simpl. unfold mem_char. simpl. rewrite orb_false_r.
    intros ->. reflexivity.
  - intros H. change (ends_with "/" (String a' b') = false) in H.
    specialize (IH H).
    change (rstrip "/" (String a (String a' b')))
      with (if is_empty (rstrip "/" (String a' b')) && mem_char a "/"
            then EmptyString else String a (rstrip "/" (String a' b'))).
    rewrite IH. reflexivity.
Qed.

(** X2. The constructor keeps a base URL exactly as given if and only if it
    does not end in a slash; slashes inside the URL are never touched. *)
Theorem base_url_kept_iff_no_trailing_slash
    (library_headers : list (string * string)) (b : string) :
  SnowRailClient.base_url (SnowRailClient.__init__ library_headers (Some b)) = b
  <-> ends_with "/" b = false.
Proof.
  split.
  - intros H. rewrite <- H at 1. apply rstrip_no_trailing_slash.
  - apply rstrip_without_trailing_slash.
Qed.

(** X3. When the session call fails without a response, the method raises
    that connection error: nothing is returned, nothing is retried, and the
    one attempt is all the traffic the call adds. *)
Theorem connection_failure_is_raised
    (Server : Type) (serve : Request -> Server -> (string + Response) * Server)
    (self : SnowRailClient.t) (c : SnowRailClient.Call) (n : Net Server)
    (why : string) :
  fst (serve (expected_request self c) (remote n)) = inl why ->
  SnowRailClient.invoke serve self c n =
  (inl (ConnectionError why),
   mkNet (sent n ++ [expected_request self c])
         (snd (serve (expected_request self c) (remote n)))).
Proof.
  intros H. pose proof (invoke_outcome serve self c n) as E. cbv zeta in E.
  rewrite E, H. reflexivity.
Qed.

End ClientHeaders.

Lemma connection_failure_is_raised_witness :
  fst (Scenarios.refusing
         (expected_request Examples.client (SnowRailClient.GetIntentStatus "i-1"))
         (remote Examples.fresh_net)) = inl "connection refused" /\
  fst (SnowRailClient.invoke Scenarios.refusing Examples.client
         (SnowRailClient.GetIntentStatus "i-1") Examples.fresh_net)
  = inl (ConnectionError "connection refused").
Proof.
  split; [reflexivity |].
  rewrite (connection_failure_is_raised nat Scenarios.refusing Examples.client
             (SnowRailClient.GetIntentStatus "i-1") Examples.fresh_net
             "connection refused" eq_refl).
  reflexivity.
Defined.

(* ===================================================================== *)
(** * Further properties of [print_validation_result] *)
(* ===================================================================== *)

Section PrinterOutput.

Import Printer.

Variable str : JSON -> string.

Lemma appends_ret {A : Type} (a : A) : Report.appends (Py.ret a).
Proof. intros out. unfold Py.ret. simpl. rewrite app_nil_r. reflexivity. Qed.

Lemma appends_raise {A : Type} (e : Exn) : Report.appends (@Py.raise Stdout A e).
Proof. intros out. unfold Py.raise. simpl. rewrite app_nil_r. reflexivity. Qed.

Lemma appends_print (line : string) : Report.appends (print line).
Proof. intros out. reflexivity. Qed.

Lemma appends_bind {A B : Type} (m : M Stdout A) (k : A -> M Stdout B) :
  Report.appends m -> (forall a, Report.appends (k a)) ->
  Report.appends (Py.bind m k).
Proof.
  intros Hm Hk out. unfold Py.bind.
  rewrite (Hm out).
  destruct (m []) as [[e | a] lines] eqn:E; simpl; [reflexivity |].
  rewrite (Hk a (out ++ lines)), (Hk a lines). simpl.
  rewrite app_assoc. reflexivity.
Qed.

Lemma appends_for_each {A : Type} (xs : list A) (body : A -> M Stdout unit) :
  (forall x, Report.appends (body x)) -> Report.appends (for_each xs body).
Proof.
  intros Hbody. induction xs as [| x xs IH]; simpl.
  - apply appends_ret.
  - apply appends_bind; [apply Hbody | intros _; exact IH].
Qed.

Lemma appends_subscript (d : list (string * JSON)) (k : string) :
  Report.appends (subscript d k).
Proof.
  unfold subscript. destruct (dict_get k d); [apply appends_ret | apply appends_raise].
Qed.

Lemma appends_item (v : JSON) (k : string) : Report.appends (item v k).
Proof.
  destruct v; simpl; try apply appends_raise. apply appends_subscript.
Qed.

Lemma appends_call_upper (v : JSON) : Report.appends (call_upper v).
Proof.
  destruct v; simpl; try apply appends_raise. apply appends_ret.
Qed.

Lemma appends_iterate (v : JSON) : Report.appends (iterate v).
Proof.
  destruct v; simpl; try apply appends_raise; apply appends_ret.
Qed.

Ltac appends_step :=
  first
    [ apply appends_print | apply appends_subscript | apply appends_item
    | apply appends_call_upper | apply appends_iterate | apply appends_ret
    | apply appends_raise
    | apply appends_for_each; intros
    | apply appends_bind; [| intros] ].

Lemma print_validation_result_appends (result : list (string * JSON)) :
  Report.appends (print_validation_result str result).
Proof.
  unfold print_validation_result.
  repeat first
    [ appends_step
    | match goal with
      | |- Report.appends (if ?c then _ else _) => destruct c
      end ].
Qed.

(** The printer only appends to standard output, and what it prints and
    whether it raises do not depend on what was printed before: also when
    it raises, the earlier lines and the part of the report already printed
    stay. *)
Theorem print_validation_result_only_appends
    (result : list (string * JSON)) (out : Stdout) :
  print_validation_result str result out =
  (fst (print_validation_result str result []),
   out ++ snd (print_validation_result str result [])).
Proof. apply print_validation_result_appends. Qed.

(** X4. The printer reads nine members and no other: two results that agree
    on url, canPay, trustScore, risk, decision, duration, blockedReasons,
    warnings and checks print the same and raise the same, whatever else
    they hold. *)
Theorem print_validation_result_reads_nine_members
    (r1 r2 : list (string * JSON)) (out : Stdout) :
  (forall k : string, In k Report.members_read -> dict_get k r1 = dict_get k r2) ->
  print_validation_result str r1 out = print_validation_result str r2 out.
Proof.
  intros H.
  assert (E1 := H "url" ltac:(simpl; tauto)).
  assert (E2 := H "canPay" ltac:(simpl; tauto)).
  assert (E3 := H "trustScore" ltac:(simpl; tauto)).
  assert (E4 := H "risk" ltac:(simpl; tauto)).
  assert (E5 := H "decision" ltac:(simpl; tauto)).
  assert (E6 := H "duration" ltac:(simpl; tauto)).
  assert (E7 := H "blockedReasons" ltac:(simpl; tauto)).
  assert (E8 := H "warnings" ltac:(simpl; tauto)).
  assert (E9 := H "checks" ltac:(simpl; tauto)).
  unfold print_validation_result, subscript.
  rewrite E1, E2, E3, E4, E5, E6, E7, E8, E9. reflexivity.
Qed.

(** The part printed for [blockedReasons] or [warnings] when the member is
    absent or a list. *)
Lemma optional_block_lines (k heading : string)
    (result : list (string * JSON)) (items : list JSON) (out : Stdout) :
  Report.items_of (dict_get k result) = Some items ->
  (if truthy (default JNull (dict_get k result)) then
     print (nl +:+ heading) ;;
     v <- subscript result k ;;
     xs <- iterate v ;;
     for_each xs (fun x => print ("  - " +:+ str x))
   else Py.ret tt) out
  = (inr tt, out ++ Report.part str heading items).
Proof.
  unfold Report.items_of. intros H.
  destruct (dict_get k result) as [v |] eqn:Ek.
  - destruct v as [| b | z | s | xs | fields]; try discriminate H.
    injection H as <-. simpl.
    destruct xs as [| x xs].
    + unfold Py.ret. simpl. rewrite app_nil_r. reflexivity.
    + rewrite bind_print.
      rewrite (bind_returns _ _ _ _ _ (subscript_present _ _ _ _ Ek)).
      erewrite bind_returns by reflexivity.
      rewrite for_each_print, <- app_assoc. reflexivity.
  - injection H as <-. unfold Py.ret. simpl. rewrite app_nil_r. reflexivity.
Qed.

Lemma item_value (v : JSON) (k : string) (out : Stdout) :
  has_key k v = true ->
  item v k out =
  (inr (match v with
        | JObj fields => default JNull (dict_get k fields)
        | _ => JNull
        end), out).
Proof.
  destruct v as [| b | z | s | items | fields]; simpl; try discriminate.
  unfold subscript. destruct (dict_get k fields); [reflexivity | discriminate].
Qed.

(** The lines printed for well-formed checks. *)
Lemma checks_loop_lines (items : list JSON) (out : Stdout) :
  forallb printable_check items = true ->
  for_each items (fun check =>
    passed <- item check "passed" ;;
    let status := if truthy passed then "✓" else "✗" in
    name <- item check "name" ;;
    score <- item check "score" ;;
    print ("  " +:+ status +:+ " " +:+ str name +:+ ": " +:+ str score +:+ "/100"))
    out
  = (inr tt, out ++ map (Report.check_line str) items).
Proof.
  revert out. induction items as [| c items IH]; intros out H; simpl.
  - unfold Py.ret. rewrite app_nil_r. reflexivity.
  - simpl in H. apply andb_true_iff in H as [Hc Hrest].
    unfold printable_check in Hc.
    apply andb_true_iff in Hc as [Hc Hscore].
    apply andb_true_iff in Hc as [Hpassed Hname].
    erewrite bind_returns;
      [| erewrite bind_returns by (apply item_value; exact Hpassed); cbv zeta;
         erewrite bind_returns by (apply item_value; exact Hname);
         erewrite bind_returns by (apply item_value; exact Hscore);
         reflexivity].
    rewrite (IH _ Hrest), <- app_assoc. reflexivity.
Qed.

Lemma checks_items (result : list (string * JSON)) (items : list JSON) (out : Stdout) :
  Report.items_of (dict_get "checks" result) = Some items ->
  iterate (default (JArr []) (dict_get "checks" result)) out = (inr items, out).
Proof.
  unfold Report.items_of.
  destruct (dict_get "checks" result) as [v |]; simpl.
  - destruct v; try discriminate. intros [= <-]. reflexivity.
  - intros [= <-]. reflexivity.
Qed.

Ltac print_all := repeat (rewrite bind_print; cbv beta).

Ltac read_member E :=
  erewrite bind_returns by (apply subscript_present; exact E); cbv beta;
  print_all.

(** X5. For a result shaped as the data model has it (the six required
    members with [risk] and [decision] strings of ASCII characters,
    [blockedReasons] and [warnings] absent or lists, [checks] absent or a
    list of dicts with passed, name and score) the printer returns and
    prints exactly: the three heading lines, one line per required member
    with YES or NO by the truthiness of [canPay] and risk and decision in
    upper case, the Blocked Reasons and Warnings parts only when their
    lists are not empty, the Security Checks heading in every case, one
    line per check, and the closing rule. *)
Theorem print_validation_result_report
    (result : list (string * JSON)) (out : Stdout)
    (url canPay trustScore duration : JSON) (risk decision : string)
    (blocked warns checks : list JSON) :
  dict_get "url" result = Some url ->
  dict_get "canPay" result = Some canPay ->
  dict_get "trustScore" result = Some trustScore ->
  dict_get "risk" result = Some (JStr risk) ->
  is_ascii risk = true ->
  dict_get "decision" result = Some (JStr decision) ->
  is_ascii decision = true ->
  dict_get "duration" result = Some duration ->
  Report.items_of (dict_get "blockedReasons" result) = Some blocked ->
  Report.items_of (dict_get "warnings" result) = Some warns ->
  Report.items_of (dict_get "checks" result) = Some checks ->
  forallb printable_check checks = true ->
  print_validation_result str result out =
  (inr tt,
   out ++
   [nl +:+ repeat_char "=" 60;
    "VALIDATION RESULT";
    repeat_char "=" 60;
    "URL:         " +:+ str url;
    "Can Pay:     " +:+ (if truthy canPay then "✓ YES" else "✗ NO");
    "Trust Score: " +:+ str trustScore +:+ "/100";
    "Risk:        " +:+ upper risk;
    "Decision:    " +:+ upper decision;
    "Duration:    " +:+ str duration +:+ "ms"] ++
   Report.part str "Blocked Reasons:" blocked ++
   Report.part str "Warnings:" warns ++
   [nl +:+ "Security Checks:"] ++
   map (Report.check_line str) checks ++
   [repeat_char "=" 60 +:+ nl]).
Proof.
  intros E1 E2 E3 E4 _ E5 _ E6 Hblocked Hwarns Hchecks Hshape.
  unfold print_validation_result. print_all.
  read_member E1. read_member E2. read_member E3.
  read_member E4. erewrite bind_returns by reflexivity. cbv beta. print_all.
  read_member E5. erewrite bind_returns by reflexivity. cbv beta. print_all.
  read_member E6.
  erewrite bind_returns by (apply optional_block_lines; exact Hblocked). cbv beta.
  erewrite bind_returns by (apply optional_block_lines; exact Hwarns). cbv beta.
  print_all.
  erewrite bind_returns by (apply checks_items; exact Hchecks). cbv beta.
  erewrite bind_returns by (apply checks_loop_lines; exact Hshape). cbv beta.
  unfold print. f_equal.
  repeat rewrite <- app_assoc. reflexivity.
Qed.

End PrinterOutput.

Lemma print_validation_result_reads_nine_members_witness :
  Printer.print_validation_result Examples.plain_str
    Scenarios.result_with_extra_member [] =
  Printer.print_validation_result Examples.plain_str Scenarios.full_result [].
Proof.
  apply (print_validation_result_reads_nine_members Examples.plain_str
           Scenarios.result_with_extra_member Scenarios.full_result []).
  intros k Hk. simpl in Hk.
  repeat (destruct Hk as [<- | Hk]; [reflexivity |]).
  destruct Hk.
Defined.

Lemma print_validation_result_report_witness :
  Printer.print_validation_result Examples.plain_str Scenarios.full_result [] =
  (inr tt,
   [Printer.nl +:+ repeat_char "=" 60;
    "VALIDATION RESULT";
    repeat_char "=" 60;
    "URL:         https://api.stripe.com";
    "Can Pay:     ✓ YES";
    "Trust Score: ?/100";
    "Risk:        LOW";
    "Decision:    ALLOW";
    "Duration:    ?ms";
    Printer.nl +:+ "Warnings:";
    "  - new domain";
    Printer.nl +:+ "Security Checks:";
    "  ✓ tls: ?/100";
    "  ✗ age: ?/100";
    repeat_char "=" 60 +:+ Printer.nl]).
Proof.
  rewrite (print_validation_result_report Examples.plain_str
             Scenarios.full_result []
             (JStr "https://api.stripe.com") (JBool true) (JNum 95) (JNum 12)
             "low" "allow"
             [] [JStr "new domain"]
             [JObj [("name", JStr "tls"); ("passed", JBool true);
                    ("score", JNum 100)];
              JObj [("name", JStr "age"); ("passed", JBool false);
                    ("score", JNum 40)]]
             eq_refl eq_refl eq_refl eq_refl eq_refl eq_refl eq_refl eq_refl
             eq_refl eq_refl eq_refl eq_refl).
  reflexivity.
Defined.

(* ===================================================================== *)
(** * Properties of the example run *)
(* ===================================================================== *)

Section ScriptProperties.

Import Script Traffic.

Context {Server : Type}.
Variable serve : Request -> Server -> (string + Response) * Server.
Variable library_headers : list (string * string).
Variable str : JSON -> string.
Variable str_exc : World Server -> Exn -> string.
Variable sort_rows : list Row -> Exn + list Row.

Local Abbreviation on_net := (Script.on_net Server).
Local Abbreviation on_stdout := (Script.on_stdout Server).
Local Abbreviation echo := (Script.echo Server).
Local Abbreviation echo_exc := (Script.echo_exc Server str_exc).
Local Abbreviation try_except_HTTPError := (Script.try_except_HTTPError Server).
Local Abbreviation check_health := (Script.check_health Server serve str str_exc).
Local Abbreviation validate_and_print :=
  (Script.validate_and_print Server serve str str_exc).
Local Abbreviation collect := (Script.collect Server serve).
Local Abbreviation batch := (Script.batch Server serve str sort_rows).
Local Abbreviation examples := (Script.examples Server serve str str_exc sort_rows).
Local Abbreviation main :=
  (Script.main Server serve library_headers str str_exc sort_rows).
Local Abbreviation the_client :=
  (SnowRailClient.__init__ library_headers (Some "http://localhost:3000")).

(** A method call inside the run: its outcome is that of the call, and the
    output is untouched. *)
Lemma on_net_invoke (self : SnowRailClient.t) (c : SnowRailClient.Call)
    (w : World Server) :
  on_net (SnowRailClient.invoke serve self c) w =
  (fst (SnowRailClient.invoke serve self c (net w)),
   mkWorld (snd (SnowRailClient.invoke serve self c (net w))) (stdout w)).
Proof.
  unfold Script.on_net.
  destruct (SnowRailClient.invoke serve self c (net w)); reflexivity.
Qed.

Lemma on_stdout_net {A : Type} (m : M Printer.Stdout A) (w : World Server) :
  net (snd (on_stdout m w)) = net w.
Proof.
  unfold Script.on_stdout. destruct (m (stdout w)); reflexivity.
Qed.

Lemma exactly_on_net_invoke (self : SnowRailClient.t) (c : SnowRailClient.Call) :
  sends_exactly (on_net (SnowRailClient.invoke serve self c))
                [expected_request self c].
Proof.
  intros w. rewrite on_net_invoke. simpl. apply invoke_sent.
Qed.

Lemma exactly_on_stdout {A : Type} (m : M Printer.Stdout A) :
  sends_exactly (on_stdout m) [].
Proof.
  intros w. rewrite on_stdout_net, app_nil_r. reflexivity.
Qed.

Lemma exactly_echo_exc (prefix : string) (e : Exn) :
  sends_exactly (echo_exc prefix e) [].
Proof.
  intros w. unfold Script.echo_exc. apply exactly_on_stdout.
Qed.

Lemma exactly_pure {A : Type} (r : Exn + A) :
  sends_exactly (fun w : World Server => (r, w)) [].
Proof. intros w. simpl. rewrite app_nil_r. reflexivity. Qed.

(** A computation that sends [reqs] whatever happens, followed by ones
    that send nothing, sends [reqs] whatever happens. *)
Lemma exactly_bind {A B : Type} (m : M (World Server) A)
    (k : A -> M (World Server) B) (reqs : list Request) :
  sends_exactly m reqs -> (forall a, sends_exactly (k a) []) ->
  sends_exactly (Py.bind m k) reqs.
Proof.
  intros Hm Hk w. unfold Py.bind. specialize (Hm w).
  destruct (m w) as [[e | a] w1]; simpl in *; [exact Hm |].
  rewrite (Hk a w1), app_nil_r. exact Hm.
Qed.

Lemma exactly_try {A : Type} (body : M (World Server) A)
    (handler : Exn -> M (World Server) A) (reqs : list Request) :
  sends_exactly body reqs -> (forall e, sends_exactly (handler e) []) ->
  sends_exactly (try_except_HTTPError body handler) reqs.
Proof.
  intros Hb Hh w. unfold Script.try_except_HTTPError. specialize (Hb w).
  destruct (body w) as [[e | a] w1]; simpl in *; [| exact Hb].
  destruct (is_http_error e); simpl; [| exact Hb].
  rewrite (Hh e w1), app_nil_r. exact Hb.
Qed.

Lemma prefix_of_exactly {E A : Type}
    (m : World Server -> (E + A) * World Server) (reqs : list Request) :
  sends_exactly m reqs -> sends_prefix m reqs.
Proof.
  intros H w. split.
  - exists (length reqs). rewrite firstn_all. apply H.
  - intros _ _. apply H.
Qed.

Lemma firstn_app_left {X : Type} (k : nat) (l1 l2 : list X) :
  exists k' : nat, firstn k l1 = firstn k' (l1 ++ l2).
Proof.
  exists (Nat.min k (length l1)).
  rewrite List.firstn_app.
  replace (Nat.min k (length l1) - length l1)%nat with 0%nat by lia.
  simpl. rewrite app_nil_r.
  destruct (Nat.le_gt_cases k (length l1)) as [Hle | Hgt].
  - rewrite Nat.min_l by exact Hle. reflexivity.
  - rewrite Nat.min_r by lia. rewrite !(List.firstn_all2 l1) by lia. reflexivity.
Qed.

Lemma in_firstn_in {X : Type} (k : nat) (l : list X) (x : X) :
  In x (firstn k l) -> In x l.
Proof.
  revert k. induction l as [| y l IH]; intros [| k]; simpl; try tauto.
  intros [-> | H]; [left; reflexivity | right; exact (IH k H)].
Qed.

Lemma firstn_app_right {X : Type} (k : nat) (l1 l2 : list X) :
  l1 ++ firstn k l2 = firstn (length l1 + k) (l1 ++ l2).
Proof.
  rewrite List.firstn_app.
  replace (length l1 + k - length l1)%nat with k by lia.
  rewrite (List.firstn_all2 l1) by lia. reflexivity.
Qed.

(** Sequencing adds up the traffic. *)
Lemma prefix_bind {A B : Type} (m : M (World Server) A)
    (k : A -> M (World Server) B) (r1 r2 : list Request) :
  sends_prefix m r1 -> (forall a, sends_prefix (k a) r2) ->
  sends_prefix (Py.bind m k) (r1 ++ r2).
Proof.
  intros Hm Hk w. unfold Py.bind.
  destruct (Hm w) as [[j Hj] Hall].
  destruct (m w) as [[e | a] w1]; simpl in *.
  - split; [| discriminate].
    destruct (firstn_app_left j r1 r2) as [j' Ej]. exists j'.
    rewrite <- Ej. exact Hj.
  - specialize (Hall a eq_refl).
    destruct (Hk a w1) as [[i Hi] Hall2]. split.
    + exists (length r1 + i)%nat.
      rewrite Hi, Hall, <- app_assoc, firstn_app_right. reflexivity.
    + intros b Hb. rewrite (Hall2 b Hb), Hall, <- app_assoc. reflexivity.
Qed.

Lemma prefix_bind_nothing_first {A B : Type} (m : M (World Server) A)
    (k : A -> M (World Server) B) (reqs : list Request) :
  sends_exactly m [] -> (forall a, sends_prefix (k a) reqs) ->
  sends_prefix (Py.bind m k) reqs.
Proof.
  intros Hm Hk. apply (prefix_bind m k [] reqs); [| exact Hk].
  apply prefix_of_exactly, Hm.
Qed.

Lemma prefix_bind_nothing_after {A B : Type} (m : M (World Server) A)
    (k : A -> M (World Server) B) (reqs : list Request) :
  sends_prefix m reqs -> (forall a, sends_exactly (k a) []) ->
  sends_prefix (Py.bind m k) reqs.
Proof.
  intros Hm Hk. rewrite <- (app_nil_r reqs).
  apply prefix_bind; [exact Hm |].
  intros a. apply prefix_of_exactly, Hk.
Qed.

Lemma exactly_for_each_echo {X : Type} (xs : list X) (f : X -> string) :
  sends_exactly (for_each xs (fun x => echo (f x))) [].
Proof.
  induction xs as [| x xs IH]; simpl.
  - apply (exactly_pure (inr tt)).
  - apply exactly_bind; [apply exactly_on_stdout | intros _; exact IH].
Qed.

(** One validation with its handler sends its one request, however it
    ends. *)
Lemma exactly_validate_and_print (self : SnowRailClient.t) (url : string) :
  sends_exactly (validate_and_print self url)
    [expected_request self (SnowRailClient.ValidateUrl url (Some 100))].
Proof.
  unfold Script.validate_and_print. apply exactly_try.
  - apply exactly_bind.
    + apply (exactly_on_net_invoke self (SnowRailClient.ValidateUrl url (Some 100))).
    + intros result. apply exactly_on_stdout.
  - intros e. apply exactly_echo_exc.
Qed.

Lemma exactly_collect_step (self : SnowRailClient.t) (url : string)
    (results : list Row) :
  sends_exactly
    (try_except_HTTPError
       (result <- on_net (SnowRailClient.validate_url serve self url None) ;;
        trustScore <- on_stdout (Printer.item result "trustScore") ;;
        canPay <- on_stdout (Printer.item result "canPay") ;;
        Py.ret (results ++ [(url, trustScore, canPay)]))
       (fun _ => Py.ret (results ++ [(url, JNum 0, JBool false)])))
    [expected_request self (SnowRailClient.ValidateUrl url None)].
Proof.
  apply exactly_try.
  - apply exactly_bind.
    + apply (exactly_on_net_invoke self (SnowRailClient.ValidateUrl url None)).
    + intros result. apply exactly_bind; [apply exactly_on_stdout |].
      intros ts. apply exactly_bind; [apply exactly_on_stdout |].
      intros cp. apply (exactly_pure (inr _)).
  - intros e. apply (exactly_pure (inr _)).
Qed.

(** The batch loop sends one validation per URL, in order. *)
Lemma prefix_collect (self : SnowRailClient.t) (todo : list string)
    (results : list Row) :
  sends_prefix (collect self todo results)
    (map (fun url => expected_request self (SnowRailClient.ValidateUrl url None))
         todo).
Proof.
  revert results. induction todo as [| url todo IH]; intros results; simpl.
  - apply prefix_of_exactly. apply (exactly_pure (inr results)).
  - apply (prefix_bind _ _ [_] _).
    + apply prefix_of_exactly, exactly_collect_step.
    + intros results'. apply IH.
Qed.

Lemma prefix_batch (self : SnowRailClient.t) :
  sends_prefix (batch self)
    (map (fun url => expected_request self (SnowRailClient.ValidateUrl url None))
         urls).
Proof.
  unfold Script.batch.
  apply prefix_bind_nothing_first; [apply exactly_on_stdout | intros _].
  apply prefix_bind_nothing_first; [apply exactly_on_stdout | intros _].
  apply prefix_bind_nothing_after; [apply prefix_collect | intros results].
  apply exactly_bind; [apply (exactly_pure (sort_rows results)) | intros sorted].
  apply exactly_bind; [apply exactly_on_stdout | intros _].
  apply exactly_bind; [apply exactly_on_stdout | intros _].
  apply exactly_bind; [apply exactly_for_each_echo | intros _].
  repeat (apply exactly_bind; [apply exactly_on_stdout | intros _]).
  apply exactly_on_stdout.
Qed.

Lemma prefix_examples (self : SnowRailClient.t) :
  sends_prefix (examples self)
    (expected_request self
       (SnowRailClient.ValidateUrl "https://api.stripe.com" (Some 100)) ::
     expected_request self
       (SnowRailClient.ValidateUrl "http://free-money.xyz" (Some 100)) ::
     map (fun url => expected_request self (SnowRailClient.ValidateUrl url None))
         urls).
Proof.
  unfold Script.examples.
  apply prefix_bind_nothing_first; [apply exactly_on_stdout | intros _].
  apply prefix_bind_nothing_first; [apply exactly_on_stdout | intros _].
  apply (prefix_bind _ _ [_] _);
    [apply prefix_of_exactly, exactly_validate_and_print | intros _].
  apply prefix_bind_nothing_first; [apply exactly_on_stdout | intros _].
  apply prefix_bind_nothing_first; [apply exactly_on_stdout | intros _].
  apply (prefix_bind _ _ [_] _);
    [apply prefix_of_exactly, exactly_validate_and_print | intros _].
  apply prefix_bind_nothing_first; [apply exactly_on_stdout | intros _].
  apply prefix_bind_nothing_first; [apply exactly_on_stdout | intros _].
  apply prefix_bind_nothing_first; [apply exactly_on_stdout | intros _].
  apply prefix_batch.
Qed.

Lemma prefix_lift {A : Type} (m : M (World Server) A) (reqs : list Request) :
  sends_prefix m reqs -> sends_prefix (lift Server m) reqs.
Proof.
  intros H w. unfold Script.lift. specialize (H w).
  destruct (m w) as [[e | a] w1]; simpl in *.
  - split; [apply H | discriminate].
  - split; [apply H |]. intros b _. apply (proj2 H a eq_refl).
Qed.

Lemma prefix_and_then {A B : Type}
    (m : World Server -> (Stop + A) * World Server)
    (k : A -> World Server -> (Stop + B) * World Server)
    (r1 r2 : list Request) :
  sends_prefix m r1 -> (forall a, sends_prefix (k a) r2) ->
  sends_prefix (and_then Server m k) (r1 ++ r2).
Proof.
  intros Hm Hk w. unfold Script.and_then.
  destruct (Hm w) as [[j Hj] Hall].
  destruct (m w) as [[e | a] w1]; simpl in *.
  - split; [| discriminate].
    destruct (firstn_app_left j r1 r2) as [j' Ej]. exists j'.
    rewrite <- Ej. exact Hj.
  - specialize (Hall a eq_refl).
    destruct (Hk a w1) as [[i Hi] Hall2]. split.
    + exists (length r1 + i)%nat.
      rewrite Hi, Hall, <- app_assoc, firstn_app_right. reflexivity.
    + intros b Hb. rewrite (Hall2 b Hb), Hall, <- app_assoc. reflexivity.
Qed.

(** What the health check at the start of the run does, by the answer to
    its one request. *)
Lemma check_health_outcome (self : SnowRailClient.t) (w : World Server) :
  check_health self w =
  match fst (serve (expected_request self SnowRailClient.HealthCheck)
                   (remote (net w))) with
  | inl why =>
      (inl (Uncaught (ConnectionError why)),
       mkWorld
         (mkNet (sent (net w) ++ [expected_request self SnowRailClient.HealthCheck])
                (snd (serve (expected_request self SnowRailClient.HealthCheck)
                            (remote (net w)))))
         (stdout w))
  | inr resp =>
      if (400 <=? status_code resp) && (status_code resp <? 600) then
        (inl (SystemExit 1),
         mkWorld
           (mkNet (sent (net w) ++ [expected_request self SnowRailClient.HealthCheck])
                  (snd (serve (expected_request self SnowRailClient.HealthCheck)
                              (remote (net w)))))
           (stdout w ++
            ["✗ API is not reachable: " +:+
               str_exc
                 (mkWorld
                    (mkNet (sent (net w) ++
                            [expected_request self SnowRailClient.HealthCheck])
                           (snd (serve (expected_request self SnowRailClient.HealthCheck)
                                       (remote (net w)))))
                    (stdout w))
                 (HTTPError (status_code resp));
             "  Make sure the backend is running: pnpm backend:dev"]))
      else
        match content_json resp with
        | None =>
            (inl (Uncaught JSONDecodeError),
             mkWorld
               (mkNet (sent (net w) ++ [expected_request self SnowRailClient.HealthCheck])
                      (snd (serve (expected_request self SnowRailClient.HealthCheck)
                                  (remote (net w)))))
               (stdout w))
        | Some (JObj fields) =>
            match dict_get "status" fields with
            | Some status =>
                (inr tt,
                 mkWorld
                   (mkNet (sent (net w) ++
                           [expected_request self SnowRailClient.HealthCheck])
                          (snd (serve (expected_request self SnowRailClient.HealthCheck)
                                      (remote (net w)))))
                   (stdout w ++
                    ["✓ API Status: " +:+ str status;
                     "  Treasury: " +:+
                       str (default (JStr "unknown") (dict_get "treasury" fields))
                       +:+ Printer.nl]))
            | None =>
                (inl (Uncaught (KeyError "status")),
                 mkWorld
                   (mkNet (sent (net w) ++
                           [expected_request self SnowRailClient.HealthCheck])
                          (snd (serve (expected_request self SnowRailClient.HealthCheck)
                                      (remote (net w)))))
                   (stdout w))
            end
        | Some _ =>
            (inl (Uncaught TypeError),
             mkWorld
               (mkNet (sent (net w) ++ [expected_request self SnowRailClient.HealthCheck])
                      (snd (serve (expected_request self SnowRailClient.HealthCheck)
                                  (remote (net w)))))
               (stdout w))
        end
  end.
Proof.
  unfold Script.check_health, Py.bind.
  change (SnowRailClient.health_check serve self)
    with (SnowRailClient.invoke serve self SnowRailClient.HealthCheck).
  rewrite on_net_invoke.
  pose proof (invoke_outcome serve self SnowRailClient.HealthCheck (net w)) as E.
  cbv zeta in E. rewrite E. clear E.
  destruct (fst (serve (expected_request self SnowRailClient.HealthCheck)
                       (remote (net w)))) as [why | resp]; [reflexivity |].
  destruct ((400 <=? status_code resp) && (status_code resp <? 600)).
  - simpl. unfold Script.echo_exc, Script.echo, Script.on_stdout. simpl.
    rewrite <- app_assoc. reflexivity.
  - destruct (content_json resp) as [health |]; [| reflexivity].
    destruct health as [| b | z | s | items | fields]; try reflexivity.
    simpl. unfold Printer.subscript.
    destruct (dict_get "status" fields) as [status |]; [| reflexivity].
    simpl. rewrite <- app_assoc. reflexivity.
Qed.

Local Abbreviation health_request :=
  (expected_request the_client SnowRailClient.HealthCheck).

(** The run up to the health check: two lines are printed. *)
Lemma main_start (w : World Server) :
  main w =
  and_then Server (check_health the_client)
    (fun _ => lift Server (examples the_client))
    (mkWorld (net w)
       (stdout w ++ ["🐍 SnowRail Python Client Example" +:+ Printer.nl;
                     "Checking API health..."])).
Proof.
  destruct w as [n out].
  unfold Script.main, Script.and_then at 1 2, Script.lift at 1 2,
    Script.echo, Script.on_stdout, Printer.print.
  simpl stdout. simpl net. cbv beta iota zeta.
  rewrite <- app_assoc. reflexivity.
Qed.

Lemma exactly_check_health (self : SnowRailClient.t) :
  sends_exactly (check_health self)
    [expected_request self SnowRailClient.HealthCheck].
Proof.
  intros w. rewrite check_health_outcome.
  destruct (fst (serve (expected_request self SnowRailClient.HealthCheck)
                       (remote (net w)))) as [why | resp]; [reflexivity |].
  destruct ((400 <=? status_code resp) && (status_code resp <? 600));
    [reflexivity |].
  destruct (content_json resp) as [health |]; [| reflexivity].
  destruct health as [| b | z | s | items | fields]; try reflexivity.
  destruct (dict_get "status" fields); reflexivity.
Qed.

Lemma prefix_main :
  sends_prefix main (script_requests the_client).
Proof.
  unfold Script.main, script_requests.
  apply (prefix_and_then _ _ [] _).
  { apply prefix_lift, prefix_of_exactly, exactly_on_stdout. }
  intros _. cbv zeta.
  apply (prefix_and_then _ _ [] _).
  { apply prefix_lift, prefix_of_exactly, exactly_on_stdout. }
  intros _.
  apply (prefix_and_then _ _ [_] _).
  { apply prefix_of_exactly, exactly_check_health. }
  intros _. apply prefix_lift, prefix_examples.
Qed.

(** X6. Whatever the server does, the example run sends the first so many
    of seven requests, in this order: the health check, the validations of
    the two example URLs with amount 100, and the validations of the four
    batch URLs.  A run that returns has sent all seven. *)
Theorem main_sends_a_prefix_of_seven_requests (w : World Server) :
  (exists k : nat,
     sent (net (snd (main w))) =
     sent (net w) ++ firstn k (script_requests the_client)) /\
  (fst (main w) = inr tt ->
     sent (net (snd (main w))) = sent (net w) ++ script_requests the_client) /\
  length (script_requests the_client) = 7%nat.
Proof.
  destruct (prefix_main w) as [Hk Hall].
  split; [exact Hk |]. split; [apply Hall | reflexivity].
Qed.

(** X7. The example run never touches the payment endpoints: every request
    it adds to the traffic is the GET of /health or a POST to
    /v1/sentinel/validate on http://localhost:3000. *)
Theorem main_never_calls_payment_endpoints (w : World Server) (req : Request) :
  In req (sent (net (snd (main w)))) ->
  In req (sent (net w)) \/
  (verb req = GET /\ target req = "http://localhost:3000/health") \/
  (verb req = POST /\
   target req = "http://localhost:3000/v1/sentinel/validate").
Proof.
  destruct (prefix_main w) as [[k Hk] _]. rewrite Hk.
  intros Hin. apply in_app_or in Hin as [Hold | Hnew]; [left; exact Hold |].
  right. apply in_firstn_in in Hnew.
  unfold script_requests, urls in Hnew. simpl in Hnew.
  repeat (destruct Hnew as [<- | Hnew];
          [first [left; split; reflexivity | right; split; reflexivity] |]).
  destruct Hnew.
Qed.

(** X8. When the health check is answered with a 4xx or 5xx status, the
    run reports that the API is not reachable, prints the hint and ends
    with [sys.exit(1)]; the health check is the only request it has
    sent. *)
Theorem main_exits_on_health_http_error (w : World Server) (resp : Response) :
  fst (serve health_request (remote (net w))) = inr resp ->
  400 <= status_code resp < 600 ->
  exists msg : string,
    main w =
    (inl (SystemExit 1),
     mkWorld
       (mkNet (sent (net w) ++ [health_request])
              (snd (serve health_request (remote (net w)))))
       (stdout w ++
        ["🐍 SnowRail Python Client Example" +:+ Printer.nl;
         "Checking API health...";
         "✗ API is not reachable: " +:+ msg;
         "  Make sure the backend is running: pnpm backend:dev"])).
Proof.
  intros Hresp Hstatus.
  rewrite main_start. unfold Script.and_then.
  rewrite check_health_outcome. simpl net. simpl stdout.
  rewrite Hresp.
  replace ((400 <=? status_code resp) && (status_code resp <? 600)) with true
    by (symmetry; apply andb_true_iff; split; [apply Z.leb_le | apply Z.ltb_lt]; lia).
  eexists. rewrite <- app_assoc. reflexivity.
Qed.

(** X9. [sys.exit] happens in no other way: a run that ends with
    [SystemExit] has exit code 1, its health check was answered with a 4xx
    or 5xx status, and that was its only request. *)
Theorem main_exit_only_on_health_http_error
    (w w' : World Server) (code : Z) :
  main w = (inl (SystemExit code), w') ->
  code = 1 /\
  sent (net w') = sent (net w) ++ [health_request] /\
  exists resp : Response,
    fst (serve health_request (remote (net w))) = inr resp /\
    400 <= status_code resp < 600.
Proof.
  rewrite main_start. unfold Script.and_then.
  rewrite check_health_outcome. simpl net. simpl stdout.
  destruct (fst (serve health_request (remote (net w)))) as [why | resp];
    [discriminate |].
  destruct (400 <=? status_code resp) eqn:Elo,
           (status_code resp <? 600) eqn:Ehi; simpl.
  - intros [= <- <-]. split; [reflexivity |]. split; [reflexivity |].
    exists resp. split; [reflexivity | lia].
  - destruct (content_json resp) as [health |]; [| discriminate].
    destruct health as [| b | z | s | items | fields]; try discriminate.
    destruct (dict_get "status" fields); [| discriminate].
    unfold Script.lift. destruct (examples _ _) as [[e | u] w1]; discriminate.
  - destruct (content_json resp) as [health |]; [| discriminate].
    destruct health as [| b | z | s | items | fields]; try discriminate.
    destruct (dict_get "status" fields); [| discriminate].
    unfold Script.lift. destruct (examples _ _) as [[e | u] w1]; discriminate.
  - destruct (content_json resp) as [health |]; [| discriminate].
    destruct health as [| b | z | s | items | fields]; try discriminate.
    destruct (dict_get "status" fields); [| discriminate].
    unfold Script.lift. destruct (examples _ _) as [[e | u] w1]; discriminate.
Qed.

(** X10. When the health check gets no response at all, the connection
    error leaves [main] uncaught: the handler for [HTTPError] does not run,
    the line that says the API is not reachable is not printed, and the
    run does not end with [sys.exit]. *)
Theorem main_connection_failure_is_uncaught (w : World Server) (why : string) :
  fst (serve health_request (remote (net w))) = inl why ->
  main w =
  (inl (Uncaught (ConnectionError why)),
   mkWorld
     (mkNet (sent (net w) ++ [health_request])
            (snd (serve health_request (remote (net w)))))
     (stdout w ++
      ["🐍 SnowRail Python Client Example" +:+ Printer.nl;
       "Checking API health..."])).
Proof.
  intros Hfail.
  rewrite main_start. unfold Script.and_then.
  rewrite check_health_outcome. simpl net. simpl stdout.
  rewrite Hfail. reflexivity.
Qed.

(** X11. A health answer that is accepted but has no [status] member stops
    the run with an uncaught [KeyError]: nothing about the health is
    printed and no validation is attempted. *)
Theorem main_health_without_status_is_uncaught
    (w : World Server) (resp : Response) (fields : list (string * JSON)) :
  fst (serve health_request (remote (net w))) = inr resp ->
  ~ 400 <= status_code resp < 600 ->
  content_json resp = Some (JObj fields) ->
  dict_get "status" fields = None ->
  main w =
  (inl (Uncaught (KeyError "status")),
   mkWorld
     (mkNet (sent (net w) ++ [health_request])
            (snd (serve health_request (remote (net w)))))
     (stdout w ++
      ["🐍 SnowRail Python Client Example" +:+ Printer.nl;
       "Checking API health..."])).
Proof.
  intros Hresp Hstatus Hjson Hmissing.
  rewrite main_start. unfold Script.and_then.
  rewrite check_health_outcome. simpl net. simpl stdout.
  rewrite Hresp, Hjson, Hmissing.
  destruct (400 <=? status_code resp) eqn:Elo,
           (status_code resp <? 600) eqn:Ehi; simpl; try reflexivity.
  lia.
Qed.

(** One validation inside the run, by the answer to its request. *)
Lemma on_net_validate_url (self : SnowRailClient.t) (url : string)
    (amount : option Z) (w : World Server) :
  on_net (SnowRailClient.validate_url serve self url amount) w =
  (fst (SnowRailClient.invoke serve self
          (SnowRailClient.ValidateUrl url amount) (net w)),
   mkWorld (snd (SnowRailClient.invoke serve self
                   (SnowRailClient.ValidateUrl url amount) (net w)))
           (stdout w)).
Proof.
  exact (on_net_invoke self (SnowRailClient.ValidateUrl url amount) w).
Qed.

Lemma in_http_error_range (status : Z) :
  400 <= status < 600 -> (400 <=? status) && (status <? 600) = true.
Proof.
  intros H. apply andb_true_iff. split; [apply Z.leb_le | apply Z.ltb_lt]; lia.
Qed.

Lemma not_in_http_error_range (status : Z) :
  ~ 400 <= status < 600 -> (400 <=? status) && (status <? 600) = false.
Proof.
  intros H. destruct (400 <=? status) eqn:Elo, (status <? 600) eqn:Ehi;
    try reflexivity. lia.
Qed.

(** X12. In examples 1 and 2 an [HTTPError] does not stop the run: when
    the validation is answered with a 4xx or 5xx status, the example prints
    one line with the error, returns normally, and has sent its one
    request. *)
Theorem validate_and_print_reports_http_error
    (self : SnowRailClient.t) (url : string) (w : World Server) (resp : Response) :
  fst (serve (expected_request self (SnowRailClient.ValidateUrl url (Some 100)))
             (remote (net w))) = inr resp ->
  400 <= status_code resp < 600 ->
  exists msg : string,
    validate_and_print self url w =
    (inr tt,
     mkWorld
       (mkNet (sent (net w) ++
               [expected_request self (SnowRailClient.ValidateUrl url (Some 100))])
              (snd (serve (expected_request self
                             (SnowRailClient.ValidateUrl url (Some 100)))
                          (remote (net w)))))
       (stdout w ++ ["✗ Error: " +:+ msg])).
Proof.
  intros Hresp Hstatus.
  unfold Script.validate_and_print, Script.try_except_HTTPError, Py.bind.
  rewrite on_net_validate_url.
  pose proof (invoke_outcome serve self
                (SnowRailClient.ValidateUrl url (Some 100)) (net w)) as E.
  cbv zeta in E. rewrite E, Hresp, (in_http_error_range _ Hstatus). clear E.
  simpl. eexists. reflexivity.
Qed.

(** X13. In the batch loop an [HTTPError] costs the URL its score, not the
    run: when the validation of the next URL is answered with a 4xx or 5xx
    status, the row (url, 0, False) is recorded and the loop goes on with
    the remaining URLs. *)
Theorem collect_records_zero_on_http_error
    (self : SnowRailClient.t) (url : string) (todo : list string)
    (results : list Row) (w : World Server) (resp : Response) :
  fst (serve (expected_request self (SnowRailClient.ValidateUrl url None))
             (remote (net w))) = inr resp ->
  400 <= status_code resp < 600 ->
  collect self (url :: todo) results w =
  collect self todo (results ++ [(url, JNum 0, JBool false)])
    (mkWorld
       (mkNet (sent (net w) ++
               [expected_request self (SnowRailClient.ValidateUrl url None)])
              (snd (serve (expected_request self (SnowRailClient.ValidateUrl url None))
                          (remote (net w)))))
       (stdout w)).
Proof.
  intros Hresp Hstatus.
  change (collect self (url :: todo) results)
    with (results' <-
            try_except_HTTPError
              (result <- on_net (SnowRailClient.validate_url serve self url None) ;;
               trustScore <- on_stdout (Printer.item result "trustScore") ;;
               canPay <- on_stdout (Printer.item result "canPay") ;;
               Py.ret (results ++ [(url, trustScore, canPay)]))
              (fun _ => Py.ret (results ++ [(url, JNum 0, JBool false)])) ;;
          collect self todo results').
  unfold Py.bind at 1. unfold Script.try_except_HTTPError, Py.bind.
  rewrite on_net_validate_url.
  pose proof (invoke_outcome serve self
                (SnowRailClient.ValidateUrl url None) (net w)) as E.
  cbv zeta in E. rewrite E, Hresp, (in_http_error_range _ Hstatus). clear E.
  reflexivity.
Qed.

(** X14. A validation that is accepted but whose body has no [trustScore]
    member is not recorded as a failed URL: the [KeyError] is not an
    [HTTPError], so the loop stops with it and the remaining URLs are not
    validated. *)
Theorem collect_stops_on_missing_trustScore
    (self : SnowRailClient.t) (url : string) (todo : list string)
    (results : list Row) (w : World Server) (resp : Response)
    (fields : list (string * JSON)) :
  fst (serve (expected_request self (SnowRailClient.ValidateUrl url None))
             (remote (net w))) = inr resp ->
  ~ 400 <= status_code resp < 600 ->
  content_json resp = Some (JObj fields) ->
  dict_get "trustScore" fields = None ->
  collect self (url :: todo) results w =
  (inl (KeyError "trustScore"),
   mkWorld
     (mkNet (sent (net w) ++
             [expected_request self (SnowRailClient.ValidateUrl url None)])
            (snd (serve (expected_request self (SnowRailClient.ValidateUrl url None))
                        (remote (net w)))))
     (stdout w)).
Proof.
  intros Hresp Hstatus Hjson Hmissing.
  change (collect self (url :: todo) results)
    with (results' <-
            try_except_HTTPError
              (result <- on_net (SnowRailClient.validate_url serve self url None) ;;
               trustScore <- on_stdout (Printer.item result "trustScore") ;;
               canPay <- on_stdout (Printer.item result "canPay") ;;
               Py.ret (results ++ [(url, trustScore, canPay)]))
              (fun _ => Py.ret (results ++ [(url, JNum 0, JBool false)])) ;;
          collect self todo results').
  unfold Py.bind at 1. unfold Script.try_except_HTTPError, Py.bind.
  rewrite on_net_validate_url.
  pose proof (invoke_outcome serve self
                (SnowRailClient.ValidateUrl url None) (net w)) as E.
  cbv zeta in E.
  rewrite E, Hresp, (not_in_http_error_range _ Hstatus), Hjson. clear E.
  unfold Script.on_stdout. simpl. unfold Printer.subscript.
  rewrite Hmissing. reflexivity.
Qed.

(** A step of the loop that returns has added one row for its URL. *)
Lemma collect_step_row (self : SnowRailClient.t) (url : string)
    (results results' : list Row) (w w1 : World Server) :
  try_except_HTTPError
    (result <- on_net (SnowRailClient.validate_url serve self url None) ;;
     trustScore <- on_stdout (Printer.item result "trustScore") ;;
     canPay <- on_stdout (Printer.item result "canPay") ;;
     Py.ret (results ++ [(url, trustScore, canPay)]))
    (fun _ => Py.ret (results ++ [(url, JNum 0, JBool false)])) w
  = (inr results', w1) ->
  exists score can_pay : JSON, results' = results ++ [(url, score, can_pay)].
Proof.
  unfold Script.try_except_HTTPError, Py.bind.
  destruct (on_net (SnowRailClient.validate_url serve self url None) w)
    as [[e | result] w2].
  - destruct (is_http_error e); [| discriminate].
    intros [= <- <-]. eauto.
  - destruct (on_stdout (Printer.item result "trustScore") w2) as [[e | ts] w3].
    + destruct (is_http_error e); [| discriminate]. intros [= <- <-]. eauto.
    + destruct (on_stdout (Printer.item result "canPay") w3) as [[e | cp] w4].
      * destruct (is_http_error e); [| discriminate]. intros [= <- <-]. eauto.
      * intros [= <- <-]. eauto.
Qed.

(** X15. When the batch loop returns, it has added exactly one row per URL,
    in the order of the URLs, after the rows it started with: no URL is
    dropped or repeated, whether its validation succeeded or raised
    [HTTPError]. *)
Theorem collect_one_row_per_url
    (self : SnowRailClient.t) (todo : list string) (results rows : list Row)
    (w w' : World Server) :
  collect self todo results w = (inr rows, w') ->
  exists added : list Row,
    rows = results ++ added /\
    map (fun row : Row => fst (fst row)) added = todo.
Proof.
  revert results w. induction todo as [| url todo IH]; intros results w; simpl.
  - intros [= <- <-]. exists []. rewrite app_nil_r. split; reflexivity.
  - unfold Py.bind at 1.
    destruct (try_except_HTTPError _ _ w) as [[e | results'] w1] eqn:Estep;
      [discriminate |].
    intros Hrest.
    destruct (collect_step_row _ _ _ _ _ _ Estep) as (score & can_pay & ->).
    destruct (IH _ _ Hrest) as (added & -> & Hurls).
    exists ((url, score, can_pay) :: added). split.
    + rewrite <- app_assoc. reflexivity.
    + simpl. rewrite Hurls. reflexivity.
Qed.

(** X16. A health answer that is accepted and has a [status] member is
    reported in two lines, the status and the treasury, with the word
    unknown for the treasury when the answer has no such member; the run
    goes on. *)
Theorem check_health_reports_status_and_treasury
    (self : SnowRailClient.t) (w : World Server) (resp : Response)
    (fields : list (string * JSON)) (status : JSON) :
  fst (serve (expected_request self SnowRailClient.HealthCheck)
             (remote (net w))) = inr resp ->
  ~ 400 <= status_code resp < 600 ->
  content_json resp = Some (JObj fields) ->
  dict_get "status" fields = Some status ->
  check_health self w =
  (inr tt,
   mkWorld
     (mkNet (sent (net w) ++ [expected_request self SnowRailClient.HealthCheck])
            (snd (serve (expected_request self SnowRailClient.HealthCheck)
                        (remote (net w)))))
     (stdout w ++
      ["✓ API Status: " +:+ str status;
       "  Treasury: " +:+
         str (default (JStr "unknown") (dict_get "treasury" fields))
         +:+ Printer.nl])).
Proof.
  intros Hresp Hstatus Hjson Hfound.
  rewrite check_health_outcome.
  rewrite Hresp, (not_in_http_error_range _ Hstatus), Hjson, Hfound.
  reflexivity.
Qed.

End ScriptProperties.

(** X6 at the server that answers every request well: the run returns and
    has sent the seven requests. *)
Lemma main_sends_a_prefix_of_seven_requests_witness :
  fst (Scenarios.main Scenarios.sentinel Scenarios.start) = inr tt /\
  sent (Script.net (snd (Scenarios.main Scenarios.sentinel Scenarios.start))) =
  sent (Script.net Scenarios.start) ++
  Script.script_requests
    (SnowRailClient.__init__ Scenarios.library_headers
       (Some "http://localhost:3000")).
Proof.
  split; [vm_compute; reflexivity |].
  apply (proj1 (proj2 (main_sends_a_prefix_of_seven_requests
                         Scenarios.sentinel Scenarios.library_headers
                         Examples.plain_str Scenarios.message Scenarios.unsorted
                         Scenarios.start))).
  vm_compute; reflexivity.
Defined.

(** X7 at the server that answers 503: the one request of the run is the
    health check. *)
Lemma main_never_calls_payment_endpoints_witness :
  In (expected_request Examples.client SnowRailClient.HealthCheck)
     (sent (Script.net (snd (Scenarios.main Examples.unavailable Scenarios.start)))) /\
  (In (expected_request Examples.client SnowRailClient.HealthCheck)
      (sent (Script.net Scenarios.start)) \/
   (verb (expected_request Examples.client SnowRailClient.HealthCheck) = GET /\
    target (expected_request Examples.client SnowRailClient.HealthCheck)
    = "http://localhost:3000/health") \/
   (verb (expected_request Examples.client SnowRailClient.HealthCheck) = POST /\
    target (expected_request Examples.client SnowRailClient.HealthCheck)
    = "http://localhost:3000/v1/sentinel/validate")).
Proof.
  assert (H : In (expected_request Examples.client SnowRailClient.HealthCheck)
                (sent (Script.net
                         (snd (Scenarios.main Examples.unavailable Scenarios.start))))).
  { vm_compute. left. reflexivity. }
  split; [exact H |].
  exact (main_never_calls_payment_endpoints
           Examples.unavailable Scenarios.library_headers
           Examples.plain_str Scenarios.message Scenarios.unsorted
           Scenarios.start _ H).
Defined.

(** X8 at the server that answers 503. *)
Lemma main_exits_on_health_http_error_witness :
  400 <= 503 < 600 /\
  exists msg : string,
    Scenarios.main Examples.unavailable Scenarios.start =
    (inl (Script.SystemExit 1),
     Script.mkWorld
       (mkNet [expected_request Examples.client SnowRailClient.HealthCheck] 1%nat)
       ["🐍 SnowRail Python Client Example" +:+ Printer.nl;
        "Checking API health...";
        "✗ API is not reachable: " +:+ msg;
        "  Make sure the backend is running: pnpm backend:dev"]).
Proof.
  split; [lia |].
  exact (main_exits_on_health_http_error
           Examples.unavailable Scenarios.library_headers
           Examples.plain_str Scenarios.message Scenarios.unsorted
           Scenarios.start
           {| status_code := 503;
              content_json := Some (JObj [("error", JStr "unavailable")]) |}
           eq_refl ltac:(simpl; lia)).
Defined.

(** X9 at the server that answers 503. *)
Lemma main_exit_only_on_health_http_error_witness :
  Scenarios.main Examples.unavailable Scenarios.start =
    (inl (Script.SystemExit 1),
     snd (Scenarios.main Examples.unavailable Scenarios.start)) /\
  (1 = 1 /\
   sent (Script.net (snd (Scenarios.main Examples.unavailable Scenarios.start))) =
   sent (Script.net Scenarios.start) ++
   [expected_request
      (SnowRailClient.__init__ Scenarios.library_headers
         (Some "http://localhost:3000"))
      SnowRailClient.HealthCheck] /\
   exists resp : Response,
     fst (Examples.unavailable
            (expected_request
               (SnowRailClient.__init__ Scenarios.library_headers
                  (Some "http://localhost:3000"))
               SnowRailClient.HealthCheck)
            (remote (Script.net Scenarios.start))) = inr resp /\
     400 <= status_code resp < 600).
Proof.
  assert (H : Scenarios.main Examples.unavailable Scenarios.start =
              (inl (Script.SystemExit 1),
               snd (Scenarios.main Examples.unavailable Scenarios.start))).
  { vm_compute. reflexivity. }
  split; [exact H |].
  exact (main_exit_only_on_health_http_error
           Examples.unavailable Scenarios.library_headers
           Examples.plain_str Scenarios.message Scenarios.unsorted
           Scenarios.start _ 1 H).
Defined.

(** X10 at the server nobody listens on. *)
Lemma main_connection_failure_is_uncaught_witness :
  Scenarios.main Scenarios.refusing Scenarios.start =
  (inl (Script.Uncaught (ConnectionError "connection refused")),
   Script.mkWorld
     (mkNet [expected_request Examples.client SnowRailClient.HealthCheck] 1%nat)
     ["🐍 SnowRail Python Client Example" +:+ Printer.nl;
      "Checking API health..."]).
Proof.
  exact (main_connection_failure_is_uncaught
           Scenarios.refusing Scenarios.library_headers
           Examples.plain_str Scenarios.message Scenarios.unsorted
           Scenarios.start "connection refused" eq_refl).
Defined.

(** X11 at the server whose answer has no [status]. *)
Lemma main_health_without_status_is_uncaught_witness :
  ~ 400 <= 300 < 600 /\
  Scenarios.main Examples.multiple_choices Scenarios.start =
  (inl (Script.Uncaught (KeyError "status")),
   Script.mkWorld
     (mkNet [expected_request Examples.client SnowRailClient.HealthCheck] 1%nat)
     ["🐍 SnowRail Python Client Example" +:+ Printer.nl;
      "Checking API health..."]).
Proof.
  split; [lia |].
  exact (main_health_without_status_is_uncaught
           Examples.multiple_choices Scenarios.library_headers
           Examples.plain_str Scenarios.message Scenarios.unsorted
           Scenarios.start
           {| status_code := 300;
              content_json := Some (JObj [("choices", JArr [])]) |}
           [("choices", JArr [])]
           eq_refl ltac:(simpl; lia) eq_refl eq_refl).
Defined.

(** X12 at the server that answers 503. *)
Lemma validate_and_print_reports_http_error_witness :
  400 <= 503 < 600 /\
  exists msg : string,
    Script.validate_and_print nat Examples.unavailable Examples.plain_str
      Scenarios.message Examples.client "http://free-money.xyz" Scenarios.start =
    (inr tt,
     Script.mkWorld
       (mkNet [expected_request Examples.client
                 (SnowRailClient.ValidateUrl "http://free-money.xyz" (Some 100))]
              1%nat)
       ["✗ Error: " +:+ msg]).
Proof.
  split; [lia |].
  exact (validate_and_print_reports_http_error
           Examples.unavailable Examples.plain_str Scenarios.message
           Examples.client "http://free-money.xyz" Scenarios.start
           {| status_code := 503;
              content_json := Some (JObj [("error", JStr "unavailable")]) |}
           eq_refl ltac:(simpl; lia)).
Defined.

(** X13 at the server that answers 503: the first URL of the batch gets its
    zero row and the loop goes on. *)
Lemma collect_records_zero_on_http_error_witness :
  400 <= 503 < 600 /\
  Script.collect nat Examples.unavailable Examples.client
    ["https://api.stripe.com"; "https://api.github.com"] [] Scenarios.start =
  Script.collect nat Examples.unavailable Examples.client
    ["https://api.github.com"]
    [("https://api.stripe.com", JNum 0, JBool false)]
    (Script.mkWorld
       (mkNet [expected_request Examples.client
                 (SnowRailClient.ValidateUrl "https://api.stripe.com" None)]
              1%nat)
       []).
Proof.
  split; [lia |].
  exact (collect_records_zero_on_http_error
           Examples.unavailable Examples.client "https://api.stripe.com"
           ["https://api.github.com"] [] Scenarios.start
           {| status_code := 503;
              content_json := Some (JObj [("error", JStr "unavailable")]) |}
           eq_refl ltac:(simpl; lia)).
Defined.

(** X14 at the server whose answers have no [trustScore]. *)
Lemma collect_stops_on_missing_trustScore_witness :
  ~ 400 <= 200 < 600 /\
  Script.collect nat Examples.healthy Examples.client Script.urls []
    Scenarios.start =
  (inl (KeyError "trustScore"),
   Script.mkWorld
     (mkNet [expected_request Examples.client
               (SnowRailClient.ValidateUrl "https://api.stripe.com" None)]
            1%nat)
     []).
Proof.
  split; [lia |].
  exact (collect_stops_on_missing_trustScore
           Examples.healthy Examples.client "https://api.stripe.com"
           ["https://api.github.com"; "https://www.google.com";
            "http://suspicious-site.xyz"] [] Scenarios.start
           {| status_code := 200;
              content_json := Some (JObj [("status", JStr "ok")]) |}
           [("status", JStr "ok")]
           eq_refl ltac:(simpl; lia) eq_refl eq_refl).
Defined.

(** X15 at the server that answers 503: the batch returns four rows, one
    per URL. *)
Lemma collect_one_row_per_url_witness :
  fst (Script.collect nat Examples.unavailable Examples.client Script.urls []
         Scenarios.start) =
  inr [("https://api.stripe.com", JNum 0, JBool false);
       ("https://api.github.com", JNum 0, JBool false);
       ("https://www.google.com", JNum 0, JBool false);
       ("http://suspicious-site.xyz", JNum 0, JBool false)] /\
  exists added : list Script.Row,
    [("https://api.stripe.com", JNum 0, JBool false);
     ("https://api.github.com", JNum 0, JBool false);
     ("https://www.google.com", JNum 0, JBool false);
     ("http://suspicious-site.xyz", JNum 0, JBool false)] = [] ++ added /\
    map (fun row : Script.Row => fst (fst row)) added = Script.urls.
Proof.
  split; [vm_compute; reflexivity |].
  apply (collect_one_row_per_url Examples.unavailable Examples.client
           Script.urls [] _ Scenarios.start
           (snd (Script.collect nat Examples.unavailable Examples.client
                   Script.urls [] Scenarios.start))).
  vm_compute. reflexivity.
Defined.

(** X16 at the server whose health answer has no [treasury]. *)
Lemma check_health_reports_status_and_treasury_witness :
  ~ 400 <= 200 < 600 /\
  Script.check_health nat Examples.healthy Examples.plain_str Scenarios.message
    Examples.client Scenarios.start =
  (inr tt,
   Script.mkWorld
     (mkNet [expected_request Examples.client SnowRailClient.HealthCheck] 1%nat)
     ["✓ API Status: ok"; "  Treasury: unknown" +:+ Printer.nl]).
Proof.
  split; [lia |].
  exact (check_health_reports_status_and_treasury
           Examples.healthy Examples.plain_str Scenarios.message
           Examples.client Scenarios.start
           {| status_code := 200;
              content_json := Some (JObj [("status", JStr "ok")]) |}
           [("status", JStr "ok")] (JStr "ok")
           eq_refl ltac:(simpl; lia) eq_refl eq_refl).
Defined.
